(** * Subscription-API: a webhook-subscription relay

    A shallow embedding of the two services of the repository,

    - [src/subscription_service/main.py]  (module [Registry] below), and
    - [src/event_listener/event_listener.py]  (module [Listener] below),

    followed by the properties of the specification that were checked
    against them.

    Conventions of the embedding.

    - A Python [int] is a [Z]; a [str] is a [string]; [Optional[T]] is
      [option T] with [None] as [None].
    - A [datetime] is a clock reading, a [Z]; the handlers read the clock
      once ([datetime.utcnow()]), so the reading is an argument [now].
      The two conversions between a [datetime] and its ISO-8601 text
      ([isoformat] on the sending side, the validator of a [datetime]
      field on the receiving side) are library code; they are Section
      variables and nothing is assumed about them.
    - A JSON request body is a record with one entry per key of the model
      it is validated against; an entry is a [field]: the key is absent
      ([Unset]), carries JSON [null] ([Null]) or carries a value of the
      JSON type the model expects ([Val]).  Values of another JSON type
      are not part of the model.
    - A handler is a function from its arguments and the state it reads to
      a result and the state it leaves.  An exception that reaches FastAPI
      is an [error]; [http_status] gives the status code the client sees.  *)

From stdpp Require Import base option list numbers strings.

Open Scope string_scope.
Open Scope list_scope.
Open Scope Z_scope.

(** ** Shared vocabulary *)

Definition datetime := Z.

Inductive field (A : Type) : Type :=
| Unset
| Null
| Val (a : A).
Arguments Unset {A}.
Arguments Null {A}.
Arguments Val {A} a.

(** What a handler can raise.  [HTTPException] is the one the handlers
    raise themselves; [RequestValidationError] is what FastAPI raises when
    a body does not validate against its model (the argument is the key at
    fault); [ServerError] is any other exception that escapes the handler. *)
Inductive error : Type :=
| HTTPException (status_code : Z) (detail : string)
| RequestValidationError (loc : string)
| ServerError.

Definition http_status (e : error) : Z :=
  match e with
  | HTTPException c _ => c
  | RequestValidationError _ => 422
  | ServerError => 500
  end.

Inductive result (A : Type) : Type :=
| Ok (a : A)
| Raise (e : error).
Arguments Ok {A} a.
Arguments Raise {A} e.

(** The body of [POST /receive], and of the POST the registry sends. *)
Record Payload : Type := mkPayload {
  p_status : field string;
  p_subscription_id : field Z;
  p_event_type : field string;
  p_timestamp : field string
}.

(** Python's [l[start:]] (the rule of [PySlice_AdjustIndices] for a step
    of 1 and no upper bound): a negative [start] counts from the end and is
    clipped at 0, a [start] beyond the end is clipped at the length. *)
Definition slice_from {A : Type} (start : Z) (l : list A) : list A :=
  let n := Z.of_nat (length l) in
  let s := if start <? 0
           then (if start + n <? 0 then 0 else start + n)
           else (if n <=? start then n else start) in
  drop (Z.to_nat s) l.

(** Python's truth value of an [Optional[str]]: [None] and [""] are false. *)
Definition truthy (o : option string) : bool :=
  match o with
  | Some s => negb (String.eqb s "")
  | None => false
  end.

(** ** The notification listener *)

Module Listener.

(** [class Notification(BaseModel)] *)
Record Notification : Type := mkNotification {
  status : string;
  subscription_id : Z;
  event_type : string;
  timestamp : datetime
}.

(** An entry of [received_notifications]. *)
Record Entry : Type := mkEntry {
  received_at : string;
  notification : Notification
}.

Abbreviation Log := (list Entry).

(** A required field: the key must be there and must not be [null]. *)
Definition required {A : Type} (loc : string) (f : field A) : result A :=
  match f with
  | Val a => Ok a
  | Unset | Null => Raise (RequestValidationError loc)
  end.

Section WithClock.
Variable isoformat : datetime -> string.
Variable parse_datetime : string -> option datetime.

(** What the five [print] calls of the handler do for a notification:
    [None] when all of them return, [Some e] when one of them raises an
    exception whose text is [e] (the first line holds an emoji, which a
    console that is not in UTF-8 cannot encode). *)
Variable printing : Notification -> option string.

(** Validation of the body against [Notification].  All four fields are
    required; the body is rejected when any of them fails. *)
Definition validate (body : Payload) : result Notification :=
  match required "status" (p_status body),
        required "subscription_id" (p_subscription_id body),
        required "event_type" (p_event_type body),
        required "timestamp" (p_timestamp body) with
  | Ok s, Ok i, Ok e, Ok t =>
      match parse_datetime t with
      | Some d => Ok (mkNotification s i e d)
      | None => Raise (RequestValidationError "timestamp")
      end
  | Raise e, _, _, _ => Raise e
  | _, Raise e, _, _ => Raise e
  | _, _, Raise e, _ => Raise e
  | _, _, _, Raise e => Raise e
  end.

(** [receive_notification]: FastAPI validates the body; the handler
    appends to the log, prints, and acknowledges.  The append and the
    prints are inside [try]: an exception there is answered 500 with its
    text, and what was appended before it stays in the log. *)
Definition receive_notification (body : Payload) (now : datetime)
    (log : Log) : result string * Log :=
  match validate body with
  | Raise e => (Raise e, log)
  | Ok n =>
      let log' := log ++ [mkEntry (isoformat now) n] in
      match printing n with
      | Some e =>
          (Raise (HTTPException 500 ("Error processing notification: " +:+ e)),
           log')
      | None => (Ok "Notification processed successfully", log')
      end
  end.
End WithClock.

(** [get_notifications]: [received_notifications[-limit:]] *)
Definition get_notifications (limit : Z) (log : Log) : list Entry :=
  slice_from (- limit) log.

(** [clear_notifications] *)
Definition clear_notifications (log : Log) : Log := [].

End Listener.

(** ** The subscription registry *)

Module Registry.

(** [class Subscription(Base)]: a row of the table [subscriptions].
    [notification_url] is [nullable=False]; [event_type] and [is_active]
    are nullable columns. *)
Record Subscription : Type := mkSubscription {
  id : Z;
  notification_url : string;
  event_type : option string;
  created_at : datetime;
  is_active : option bool
}.

(** The table: its rows, in the order the store returns them. *)
Abbreviation Table := (list Subscription).

(** The JSON body of [POST /subscriptions/]. *)
Record CreateBody : Type := mkCreateBody {
  cb_notification_url : field string;
  cb_event_type : field string
}.

(** [class SubscriptionCreate(BaseModel)], once validated. *)
Record SubscriptionCreate : Type := mkSubscriptionCreate {
  sc_notification_url : string;
  sc_event_type : option string
}.

(** [class SubscriptionUpdate(BaseModel)].  Every field is optional with
    default [None], so every body validates; the record keeps, for each
    field, whether the body set it ([Unset] is a field outside the
    model's set of supplied fields, whose value is the default). *)
Record SubscriptionUpdate : Type := mkSubscriptionUpdate {
  su_notification_url : field string;
  su_event_type : field string;
  su_is_active : field bool
}.

(** [class SubscriptionResponse(BaseModel)] *)
Record SubscriptionResponse : Type := mkSubscriptionResponse {
  r_id : Z;
  r_notification_url : string;
  r_event_type : option string;
  r_created_at : datetime;
  r_is_active : bool
}.

(** *** Authentication *)

Definition VALID_TOKEN : string := "secret-token".

(** What [HTTPBearer(auto_error=False)] hands over when the request has
    an [Authorization] header of the form [<scheme> <credentials>] whose
    scheme is [bearer] in any letter case. *)
Record HTTPAuthorizationCredentials : Type := mkHTTPAuthorizationCredentials {
  scheme : string;
  credentials : string
}.

(** The three places a request can carry a token. *)
Record Credentials : Type := mkCredentials {
  authorization : option HTTPAuthorizationCredentials;
  x_access_token : option string;
  plain_token : option string
}.

Definition authenticate (credentials_ : option HTTPAuthorizationCredentials)
    (x_access_token_ plain_token_ : option string) : result string :=
  let token :=
    if match credentials_ with
       | Some c => String.eqb (scheme c) "Bearer"
       | None => false
       end
    then credentials <$> credentials_
    else if truthy x_access_token_ then x_access_token_
    else if truthy plain_token_ then plain_token_
    else None in
  match token with
  | Some t =>
      if negb (truthy token) || negb (String.eqb t VALID_TOKEN)
      then Raise (HTTPException 401 "Invalid or missing credentials")
      else Ok t
  | None => Raise (HTTPException 401 "Invalid or missing credentials")
  end.

(** *** The state of the service and the handlers' monad *)

(** The calls a handler makes on its session, in the order of the source. *)
Inductive db_call : Type :=
| Query_all
| Query_first (sub_id : Z)
| Add
| Delete (sub_id : Z)
| Commit
| Refresh (sub_id : Z).

(** The answer of the network to one [requests.post].  [Raised msg]: the
    call raised a [RequestException] [e] with [str(e) = msg].
    [Responded code msg]: a response with status [code] came back; [msg]
    is the text [raise_for_status] gives its [HTTPError] for this
    response. *)
Inductive post_outcome : Type :=
| Raised (msg : string)
| Responded (status_code : Z) (msg : string).

Definition Network := string -> Payload -> post_outcome.

Record World : Type := mkWorld {
  db : Table;
  calls : list db_call;
  outbox : list (string * Payload)
}.

Definition M (A : Type) : Type := World -> result A * World.

Definition ret {A : Type} (a : A) : M A := fun w => (Ok a, w).

Definition raise {A : Type} (e : error) : M A := fun w => (Raise e, w).

Definition bind {A B : Type} (m : M A) (k : A -> M B) : M B :=
  fun w =>
    match m w with
    | (Ok a, w') => k a w'
    | (Raise e, w') => (Raise e, w')
    end.

Notation "'do' x <- m ; k" := (bind m (fun x => k))
  (at level 10, x name, m at level 100, k at level 200).

Definition lift {A : Type} (r : result A) : M A := fun w => (r, w).

Definition rows : M Table := fun w => (Ok (db w), w).

Definition session (c : db_call) : M unit :=
  fun w => (Ok tt, mkWorld (db w) (calls w ++ [c]) (outbox w)).

Definition write (t : Table) : M unit :=
  fun w => (Ok tt, mkWorld t (calls w) (outbox w)).

Definition post (net : Network) (url : string) (json : Payload)
    : M post_outcome :=
  fun w => (Ok (net url json),
            mkWorld (db w) (calls w) (outbox w ++ [(url, json)])).

(** *** The store *)

(** The row that [filter(Subscription.id == sub_id).first()] returns from
    the table when the query can carry [sub_id] ([query_first] below has
    the case where it cannot). *)
Definition first (sub_id : Z) (t : Table) : option Subscription :=
  head (filter (fun r => id r = sub_id) t).

(** SQLite integers, row ids among them, are signed 64-bit integers. *)
Definition MIN_ROWID : Z := -9223372036854775808.

Definition MAX_ROWID : Z := 9223372036854775807.

Definition in_int64 (z : Z) : bool := (MIN_ROWID <=? z) && (z <=? MAX_ROWID).

(** The key the store gives to a new row.  The store is the library's,
    not the repository's: [id] is declared
    [Column(Integer, primary_key=True)] and the table is created without
    the [sqlite_autoincrement] option, so in the SQLite file the engine
    opens, [id] is the row id of an ordinary row-id table: a new row gets
    the largest row id in the table plus one, and 1 in an empty table.
    SQLite follows this rule while the largest row id is below
    [MAX_ROWID]; at [MAX_ROWID] it tries unused row ids at random instead.
    The properties that state the rule itself are stated below
    [MAX_ROWID]; a table filled by [create_subscription] from the empty
    one stays there, its keys being bounded by the number of rows ever
    inserted. *)
Definition next_rowid (t : Table) : Z :=
  match t with
  | [] => 1
  | r :: t' => foldr (fun r' m => Z.max (id r') m) (id r) t' + 1
  end.

(** [DELETE FROM subscriptions WHERE id = ?] *)
Definition delete_row (sub_id : Z) (t : Table) : Table :=
  filter (fun r => id r <> sub_id) t.

(** [UPDATE subscriptions SET ... WHERE id = ?] *)
Definition update_row (r' : Subscription) (t : Table) : Table :=
  (fun r => if decide (id r = id r') then r' else r) <$> t.

(** Serialisation through [response_model=SubscriptionResponse]
    ([orm_mode]): [is_active: bool] does not accept [None]. *)
Definition respond (r : Subscription) : result SubscriptionResponse :=
  match is_active r with
  | Some b =>
      Ok (mkSubscriptionResponse (id r) (notification_url r) (event_type r)
            (created_at r) b)
  | None => Raise ServerError
  end.

Fixpoint respond_all (t : Table) : result (list SubscriptionResponse) :=
  match t with
  | [] => Ok []
  | r :: t' =>
      match respond r, respond_all t' with
      | Ok x, Ok xs => Ok (x :: xs)
      | Raise e, _ => Raise e
      | _, Raise e => Raise e
      end
  end.

(** *** The endpoints *)

(** [token: str = Depends(authenticate)]: FastAPI runs the dependency
    before it validates the body and before the handler's own code. *)
Definition Depends_authenticate (a : Credentials) : M string :=
  lift (authenticate (authorization a) (x_access_token a) (plain_token a)).

(** [db.refresh(db_sub)]: the row is read back by its key. *)
Definition refresh (sub_id : Z) : M Subscription :=
  do _ <- session (Refresh sub_id);
  do t <- rows;
  match first sub_id t with
  | Some r => ret r
  | None => raise ServerError
  end.

(** [db.query(Subscription).filter(Subscription.id == sub_id).first()].
    A [sub_id] outside the signed 64-bit range cannot be bound to the
    query: the driver raises [OverflowError], which no handler catches.
    No row of a SQLite table has such a key, so the range is tested where
    the lookup finds nothing. *)
Definition query_first (sub_id : Z) : M (option Subscription) :=
  do _ <- session (Query_first sub_id);
  do t <- rows;
  match first sub_id t with
  | Some r => ret (Some r)
  | None => if in_int64 sub_id then ret None else raise ServerError
  end.

(** [GET /subscriptions/] *)
Definition list_subscriptions (a : Credentials)
    : M (list SubscriptionResponse) :=
  do _ <- Depends_authenticate a;
  do _ <- session Query_all;
  do t <- rows;
  lift (respond_all t).

(** Validation of the body against [SubscriptionCreate]:
    [notification_url: str] is required, [event_type: Optional[str]]
    defaults to [None]. *)
Definition validate_create (body : CreateBody) : result SubscriptionCreate :=
  match cb_notification_url body with
  | Val url =>
      Ok (mkSubscriptionCreate url
            match cb_event_type body with
            | Val e => Some e
            | Unset | Null => None
            end)
  | Unset | Null => Raise (RequestValidationError "notification_url")
  end.

(** [POST /subscriptions/].  The new object has the two attributes of
    [subscription.dict()]; the INSERT of [db.commit()] supplies the
    column defaults ([created_at], [is_active]) and the store the key. *)
Definition create_subscription (a : Credentials) (body : CreateBody)
    (now : datetime) : M SubscriptionResponse :=
  do _ <- Depends_authenticate a;
  do subscription <- lift (validate_create body);
  do _ <- session Add;
  do _ <- session Commit;
  do t <- rows;
  do _ <- write (t ++ [mkSubscription (next_rowid t)
                         (sc_notification_url subscription)
                         (sc_event_type subscription) now (Some true)]);
  do db_sub <- refresh (next_rowid t);
  lift (respond db_sub).

(** One entry of [subscription.dict(exclude_unset=True)]. *)
Inductive attr : Type :=
| Set_notification_url (v : option string)
| Set_event_type (v : option string)
| Set_is_active (v : option bool).

(** A field the body set is an entry of the dict, with [None] for
    [null]; a field it did not set is left out. *)
Definition entry {A : Type} (mk : option A -> attr) (f : field A)
    : list attr :=
  match f with
  | Unset => []
  | Null => [mk None]
  | Val a => [mk (Some a)]
  end.

Definition dict_exclude_unset (u : SubscriptionUpdate) : list attr :=
  entry Set_notification_url (su_notification_url u)
  ++ entry Set_event_type (su_event_type u)
  ++ entry Set_is_active (su_is_active u).

(** The object in the session: any attribute can be given [None]. *)
Record Instance : Type := mkInstance {
  i_id : Z;
  i_notification_url : option string;
  i_event_type : option string;
  i_created_at : datetime;
  i_is_active : option bool
}.

Definition load (r : Subscription) : Instance :=
  mkInstance (id r) (Some (notification_url r)) (event_type r)
    (created_at r) (is_active r).

Definition setattr (o : Instance) (kv : attr) : Instance :=
  match kv with
  | Set_notification_url v =>
      mkInstance (i_id o) v (i_event_type o) (i_created_at o) (i_is_active o)
  | Set_event_type v =>
      mkInstance (i_id o) (i_notification_url o) v (i_created_at o)
        (i_is_active o)
  | Set_is_active v =>
      mkInstance (i_id o) (i_notification_url o) (i_event_type o)
        (i_created_at o) v
  end.

(** The row the UPDATE of [db.commit()] writes; there is none when
    [notification_url] is [None] (the NOT NULL constraint fails and the
    commit raises). *)
Definition flush (o : Instance) : option Subscription :=
  match i_notification_url o with
  | Some url =>
      Some (mkSubscription (i_id o) url (i_event_type o) (i_created_at o)
              (i_is_active o))
  | None => None
  end.

(** [PATCH /subscriptions/{sub_id}] *)
Definition update_subscription (a : Credentials) (sub_id : Z)
    (subscription : SubscriptionUpdate) : M SubscriptionResponse :=
  do _ <- Depends_authenticate a;
  do found <- query_first sub_id;
  match found with
  | None => raise (HTTPException 404 "Subscription not found")
  | Some db_sub =>
      let update_data := dict_exclude_unset subscription in
      let obj := foldl setattr (load db_sub) update_data in
      do _ <- session Commit;
      match flush obj with
      | None => raise ServerError
      | Some r' =>
          do t <- rows;
          do _ <- write (update_row r' t);
          do r <- refresh sub_id;
          lift (respond r)
      end
  end.

(** [DELETE /subscriptions/{sub_id}] *)
Definition delete_subscription (a : Credentials) (sub_id : Z) : M unit :=
  do _ <- Depends_authenticate a;
  do found <- query_first sub_id;
  match found with
  | None => raise (HTTPException 404 "Subscription not found")
  | Some db_sub =>
      do _ <- session (Delete (id db_sub));
      do _ <- session Commit;
      do t <- rows;
      write (delete_row (id db_sub) t)
  end.

(** [Response.raise_for_status]: the text of the [HTTPError] it raises,
    for a client error (4xx) or a server error (5xx) only. *)
Definition raise_for_status (status_code : Z) (msg : string)
    : option string :=
  if (400 <=? status_code) && (status_code <? 500) then Some msg
  else if (500 <=? status_code) && (status_code <? 600) then Some msg
  else None.

Section WithClock.
Variable isoformat : datetime -> string.

(** The [json=] argument of the POST. *)
Definition notification (sub_id : Z) (subscription : Subscription)
    (now : datetime) : Payload :=
  mkPayload (Val "success") (Val sub_id)
    match event_type subscription with
    | Some e => Val e
    | None => Null
    end
    (Val (isoformat now)).

(** [POST /subscriptions/{sub_id}/notify] *)
Definition notify_subscription (a : Credentials) (sub_id : Z)
    (now : datetime) (net : Network) : M string :=
  do _ <- Depends_authenticate a;
  do found <- query_first sub_id;
  match found with
  | None => raise (HTTPException 404 "Subscription not found")
  | Some subscription =>
      if negb (default false (is_active subscription))
      then raise (HTTPException 400 "Inactive subscription")
      else
        do response <- post net (notification_url subscription)
                         (notification sub_id subscription now);
        match response with
        | Raised e =>
            raise (HTTPException 500 ("Notification failed: " +:+ e))
        | Responded status_code msg =>
            match raise_for_status status_code msg with
            | Some e =>
                raise (HTTPException 500 ("Notification failed: " +:+ e))
            | None => ret "Notification sent successfully"
            end
        end
  end.

(** *** The service as a whole *)

Inductive Request : Type :=
| GET_subscriptions
| POST_subscriptions (body : CreateBody)
| PATCH_subscription (sub_id : Z) (body : SubscriptionUpdate)
| DELETE_subscription (sub_id : Z)
| POST_notify (sub_id : Z).

Inductive Reply : Type :=
| Listed (l : list SubscriptionResponse)
| Created (r : SubscriptionResponse)
| Updated (r : SubscriptionResponse)
| NoContent
| Message (m : string).

Definition fmap_M {A B : Type} (f : A -> B) (m : M A) : M B :=
  do x <- m; ret (f x).

(** One request, with the clock reading and the network it meets. *)
Definition serve (a : Credentials) (q : Request) (now : datetime)
    (net : Network) : M Reply :=
  match q with
  | GET_subscriptions => fmap_M Listed (list_subscriptions a)
  | POST_subscriptions body =>
      fmap_M Created (create_subscription a body now)
  | PATCH_subscription sub_id body =>
      fmap_M Updated (update_subscription a sub_id body)
  | DELETE_subscription sub_id =>
      fmap_M (fun _ => NoContent) (delete_subscription a sub_id)
  | POST_notify sub_id =>
      fmap_M Message (notify_subscription a sub_id now net)
  end.
End WithClock.

End Registry.

(** * Vocabulary of the properties *)

Module ListenerSpec.
Import Listener.

(** The [k] most recent entries of a log, oldest first: the log is kept
    in arrival order, so these are its last [k] entries. *)
Definition most_recent {A : Type} (k : nat) (l : list A) : list A :=
  reverse (take k (reverse l)).

(** A log of three notifications. *)
Definition sample_log : Log :=
  [mkEntry "2024-01-01T00:00:01" (mkNotification "success" 1 "test" 10);
   mkEntry "2024-01-01T00:00:02" (mkNotification "success" 2 "test" 20);
   mkEntry "2024-01-01T00:00:03" (mkNotification "success" 3 "test" 30)].

End ListenerSpec.

Module AuthSpec.
Import Registry.

(** The answer to a request that fails authentication. *)
Definition unauthorized {A : Type} : result A :=
  Raise (HTTPException 401 "Invalid or missing credentials").

(** The token a request presents when every source it carries counts:
    the first of [Authorization], [x-access-token] and [plain_token]
    that is there. *)
Definition presented (a : Credentials) : option string :=
  match authorization a, x_access_token a, plain_token a with
  | Some c, _, _ => Some (credentials c)
  | None, Some t, _ => Some t
  | None, None, o => o
  end.

(** A header or parameter counts when it is there and not empty. *)
Definition non_empty (o : option string) : option string :=
  match o with
  | Some s => if String.eqb s "" then None else Some s
  | None => None
  end.

(** The sources that count for the code, in their order of precedence:
    the [Authorization] header when its scheme is spelled [Bearer], then
    a non-empty [x-access-token] header, then a non-empty [plain_token]
    query parameter. *)
Definition sources (a : Credentials) : list (option string) :=
  [ match authorization a with
    | Some c =>
        if String.eqb (scheme c) "Bearer" then Some (credentials c) else None
    | None => None
    end;
    non_empty (x_access_token a);
    non_empty (plain_token a) ].

(** First match wins. *)
Fixpoint first_match (l : list (option string)) : option string :=
  match l with
  | [] => None
  | Some t :: _ => Some t
  | None :: l' => first_match l'
  end.

(** The test of the token selected against the configured secret. *)
Definition check (o : option string) : result string :=
  match o with
  | Some t => if String.eqb t VALID_TOKEN then Ok t else unauthorized
  | None => unauthorized
  end.

(** [authenticate] on the three sources of a request. *)
Definition run_authenticate (a : Credentials) : result string :=
  authenticate (authorization a) (x_access_token a) (plain_token a).

End AuthSpec.

Module RegistrySpec.
Import Registry.

(** The value of an optional field of a body. *)
Definition optional {A : Type} (f : field A) : option A :=
  match f with
  | Val a => Some a
  | Unset | Null => None
  end.

(** The value a field of a PATCH body leaves in the column [old]. *)
Definition patched {A : Type} (f : field A) (old : option A) : option A :=
  match f with
  | Unset => old
  | Null => None
  | Val a => Some a
  end.

(** The reply for a row whose [is_active] is the boolean [b]. *)
Definition response_of (r : Subscription) (b : bool) : SubscriptionResponse :=
  mkSubscriptionResponse (id r) (notification_url r) (event_type r)
    (created_at r) b.

(** The row an update leaves under the key of [r]. *)
Definition updated (r : Subscription) (u : SubscriptionUpdate)
    (url : string) : Subscription :=
  mkSubscription (id r) url (patched (su_event_type u) (event_type r))
    (created_at r) (patched (su_is_active u) (is_active r)).

(** The answers of the handlers to a missing row and to a failed POST. *)
Definition not_found {A : Type} : result A :=
  Raise (HTTPException 404 "Subscription not found").

(** The answer when the lookup finds no row: 404 for a [sub_id] the
    query can carry, a server error for one it cannot. *)
Definition no_row {A : Type} (sub_id : Z) : result A :=
  if in_int64 sub_id then not_found else Raise ServerError.

Definition delivery_failed {A : Type} (e : string) : result A :=
  Raise (HTTPException 500 ("Notification failed: " +:+ e)).

(** The JSON value of an optional column. *)
Definition json_of (o : option string) : field string :=
  match o with
  | Some e => Val e
  | None => Null
  end.

End RegistrySpec.

Module Lifetime.
Import Registry.

(** A sequence of calls of [create_subscription] and
    [delete_subscription], and what each call did. *)
Inductive op : Type :=
| Create (body : CreateBody) (now : datetime)
| Remove (sub_id : Z).

Inductive event : Type :=
| Assigned (k : Z)
| Deleted (k : Z)
| Refused.

Definition step (a : Credentials) (o : op) (w : World) : event * World :=
  match o with
  | Create body now =>
      match create_subscription a body now w with
      | (Ok r, w') => (Assigned (r_id r), w')
      | (Raise _, w') => (Refused, w')
      end
  | Remove sub_id =>
      match delete_subscription a sub_id w with
      | (Ok _, w') => (Deleted sub_id, w')
      | (Raise _, w') => (Refused, w')
      end
  end.

Fixpoint run (a : Credentials) (ops : list op) (w : World) : World :=
  match ops with
  | [] => w
  | o :: ops' => run a ops' (step a o w).2
  end.

Fixpoint history (a : Credentials) (ops : list op) (w : World)
    : list event :=
  match ops with
  | [] => []
  | o :: ops' => (step a o w).1 :: history a ops' (step a o w).2
  end.

(** No key is assigned after it was deleted. *)
Definition never_reused (h : list event) : Prop :=
  forall (i j : nat) (k : Z),
    (i < j)%nat -> h !! i = Some (Deleted k) -> h !! j <> Some (Assigned k).

End Lifetime.

Module Samples.
Import Registry Lifetime.

(** The ISO text of a clock that stands still. *)
Definition still_clock (t : datetime) : string := "2024-01-01T00:00:00".

(** Credentials, tables, networks and bodies for the worked requests. *)
Definition bearer_ok : Credentials :=
  mkCredentials (Some (mkHTTPAuthorizationCredentials "Bearer" "secret-token"))
    None None.

Definition wrong_bearer : Credentials :=
  mkCredentials (Some (mkHTTPAuthorizationCredentials "Bearer" "wrong-token"))
    (Some "secret-token") None.

(** A wrong token under a scheme spelled in lower case, with the right
    token in [x-access-token]. *)
Definition lower_case_bearer : Credentials :=
  mkCredentials (Some (mkHTTPAuthorizationCredentials "bearer" "wrong-token"))
    (Some "secret-token") None.

Definition empty : World := mkWorld [] [] [].

Definition hook : CreateBody :=
  mkCreateBody (Val "http://localhost:8001/receive") (Val "test").

Definition row1 : Subscription :=
  mkSubscription 1 "http://localhost:8001/receive" (Some "test") 0 (Some true).

Definition row2 : Subscription :=
  mkSubscription 2 "http://localhost:8001/receive" None 5 (Some true).

Definition row3 : Subscription :=
  mkSubscription 3 "http://localhost:8001/receive" (Some "test") 7
    (Some false).

Definition three : World := mkWorld [row1; row2; row3] [] [].

Definition refuses : Network := fun _ _ => Raised "Connection refused".


(** A creation, the deletion of the row created, a second creation: the
    second creation is given the key the first one had. *)
Definition create_delete_create : list op :=
  [Create hook 0; Remove 1; Create hook 1].


End Samples.

Module Invariants.
Import Registry.

(** The primary key: no two rows of the table have the same [id]. *)
Definition unique_ids (t : Table) : Prop := NoDup (id <$> t).

(** The keys of the table lie between 1 and [n]. *)
Definition ids_within (n : Z) (t : Table) : Prop :=
  forall r, r ∈ t -> 1 <= id r <= n.

End Invariants.

Module MoreSamples.
Import Registry Samples.

(** A validator that reads the text of the clock that stands still. *)
Definition still_parser (s : string) : option datetime :=
  if String.eqb s "2024-01-01T00:00:00" then Some 0 else None.

(** A row whose [is_active] is NULL, and a table that holds it. *)
Definition row4 : Subscription :=
  mkSubscription 4 "http://localhost:8001/receive" None 8 None.

Definition four : World := mkWorld [row1; row2; row3; row4] [] [].

(** A deletion of the row in the middle of [three], then a creation. *)
Definition delete_then_create : list Lifetime.op :=
  [Lifetime.Remove 2; Lifetime.Create hook 9].

(** A console that prints everything, and one that cannot print. *)
Definition prints (n : Listener.Notification) : option string := None.

Definition cannot_print (n : Listener.Notification) : option string :=
  Some "'ascii' codec can't encode character".

(** A network that answers every POST with [200 OK]. *)
Definition accepts : Network := fun _ _ => Responded 200 "".

(** A well-formed body for [POST /receive]. *)
Definition ping : Payload :=
  mkPayload (Val "success") (Val 1) (Val "test") (Val "2024-01-01T00:00:00").

End MoreSamples.

(** * Properties *)

(** ** The listener's log *)

Module ListenerFacts.
Import Listener ListenerSpec.

Lemma most_recent_drop {A : Type} (k : nat) (l : list A) :
  most_recent k l = drop (length l - k) l.
Proof.
  unfold most_recent.
  rewrite <- (reverse_involutive l).
  generalize (reverse l) as m. clear l. intros m.
  rewrite reverse_involutive, length_reverse.
  rewrite <- (take_drop k m) at 3.
  rewrite reverse_app, drop_app_length'; [done|].
  rewrite length_reverse, length_drop. done.
Qed.

Lemma slice_from_negative {A : Type} (k : Z) (l : list A) :
  0 < k ->
  slice_from (- k) l = drop (length l - Z.to_nat k) l.
Proof.
  intros Hk. unfold slice_from.
  replace (- k <? 0) with true by (symmetry; apply Z.ltb_lt; lia).
  destruct (Z.ltb_spec (- k + Z.of_nat (length l)) 0) as [H|H].
  - replace (length l - Z.to_nat k)%nat with 0%nat by lia. done.
  - f_equal. lia.
Qed.

Lemma slice_from_nonnegative {A : Type} (k : Z) (l : list A) :
  0 <= k ->
  slice_from k l = drop (Z.to_nat k) l.
Proof.
  intros Hk. unfold slice_from.
  replace (k <? 0) with false by (symmetry; apply Z.ltb_ge; lia).
  destruct (Z.leb_spec (Z.of_nat (length l)) k) as [H|H]; [|done].
  rewrite Nat2Z.id, drop_all. symmetry. apply drop_ge. lia.
Qed.

(** C7.  For a positive [limit], [get_notifications] returns the
    [min limit (length log)] most recent entries of the log, in arrival
    order: a suffix of the log, of that length; it is the whole log when
    [limit] is at least the size of the log. *)
Theorem get_notifications_recent (log : Log) (limit : Z) :
  0 < limit ->
  let k := Nat.min (Z.to_nat limit) (length log) in
  get_notifications limit log = most_recent k log
  /\ length (get_notifications limit log) = k
  /\ (exists older, log = older ++ get_notifications limit log)
  /\ (Z.of_nat (length log) <= limit -> get_notifications limit log = log).
Proof.
  intros Hl k. unfold get_notifications.
  rewrite slice_from_negative by done.
  assert (Hd : (length log - Z.to_nat limit = length log - k)%nat) by lia.
  rewrite Hd. repeat split.
  - by rewrite most_recent_drop.
  - rewrite length_drop. lia.
  - exists (take (length log - k) log). by rewrite take_drop.
  - intros Hbig. replace (length log - k)%nat with 0%nat by lia. done.
Qed.

(** C8.  With [limit = 0] the whole log is returned, and with
    [limit = -k] for a positive [k] everything but the [k] oldest
    entries. *)
Theorem get_notifications_nonpositive (log : Log) :
  get_notifications 0 log = log
  /\ forall k, 0 < k ->
       get_notifications (- k) log = drop (Z.to_nat k) log.
Proof.
  unfold get_notifications. split.
  - by rewrite slice_from_nonnegative.
  - intros k Hk. rewrite Z.opp_involutive.
    apply slice_from_nonnegative. lia.
Qed.

Lemma get_notifications_recent_witness :
  0 < 2 /\ get_notifications 2 sample_log = drop 1 sample_log.
Proof.
  split; [lia|].
  destruct (get_notifications_recent sample_log 2) as [H _]; [lia|].
  rewrite H. reflexivity.
Defined.

Lemma get_notifications_nonpositive_witness :
  0 < 2 /\ get_notifications (- 2) sample_log = drop 2 sample_log.
Proof.
  split; [lia|].
  apply (proj2 (get_notifications_nonpositive sample_log) 2). lia.
Defined.

End ListenerFacts.

(** ** The registry's store *)

Module StoreFacts.
Import Registry.

Lemma first_nil (k : Z) : first k [] = None.
Proof. reflexivity. Qed.

Lemma first_cons (k : Z) (r : Subscription) (t : Table) :
  first k (r :: t) = if decide (id r = k) then Some r else first k t.
Proof.
  unfold first. rewrite filter_cons. by destruct (decide (id r = k)).
Qed.

Lemma first_Some (k : Z) (t : Table) (r : Subscription) :
  first k t = Some r -> id r = k /\ r ∈ t.
Proof.
  induction t as [|x t IH]; [done|].
  rewrite first_cons. destruct (decide (id x = k)) as [E|E]; intros H.
  - injection H as <-. split; [done | apply list_elem_of_here].
  - destruct (IH H) as [? ?]. split; [done | by apply list_elem_of_further].
Qed.

Lemma first_None (k : Z) (t : Table) :
  first k t = None <-> forall r, r ∈ t -> id r <> k.
Proof.
  induction t as [|x t IH].
  - split; [intros _ r Hr; by apply elem_of_nil in Hr | done].
  - rewrite first_cons. destruct (decide (id x = k)) as [E|E].
    + split; [done|]. intros H. destruct (H x); [apply list_elem_of_here | done].
    + rewrite IH. split.
      * intros H r Hr. apply elem_of_cons in Hr as [->|Hr]; auto.
      * intros H r Hr. apply H. by apply list_elem_of_further.
Qed.

Lemma first_app_new (k : Z) (t : Table) (r : Subscription) :
  first k t = None -> id r = k -> first k (t ++ [r]) = Some r.
Proof.
  induction t as [|x t IH]; simpl; intros Hn Hk.
  - rewrite first_cons. by destruct (decide (id r = k)).
  - rewrite first_cons in *. destruct (decide (id x = k)); [done | auto].
Qed.

Lemma first_app_other (k : Z) (t : Table) (r : Subscription) :
  id r <> k -> first k (t ++ [r]) = first k t.
Proof.
  intros Hk. induction t as [|x t IH]; simpl.
  - rewrite first_cons. by destruct (decide (id r = k)).
  - rewrite !first_cons. by destruct (decide (id x = k)).
Qed.

Lemma first_update_row (t : Table) (r r' : Subscription) :
  first (id r') t = Some r -> first (id r') (update_row r' t) = Some r'.
Proof.
  unfold update_row.
  induction t as [|x t IH]; [done|].
  rewrite fmap_cons, !first_cons.
  destruct (decide (id x = id r')) as [E|E].
  - intros _. by destruct (decide (id r' = id r')).
  - destruct (decide (id x = id r')); [done | auto].
Qed.

Lemma first_update_row_other (k : Z) (t : Table) (r' : Subscription) :
  k <> id r' -> first k (update_row r' t) = first k t.
Proof.
  intros Hk. unfold update_row.
  induction t as [|x t IH]; [done|].
  rewrite fmap_cons, !first_cons.
  destruct (decide (id x = id r')) as [E|E].
  - destruct (decide (id r' = k)); [congruence|].
    destruct (decide (id x = k)); [congruence | done].
  - by destruct (decide (id x = k)).
Qed.

Lemma first_delete_row (k : Z) (t : Table) :
  first k (delete_row k t) = None.
Proof.
  apply first_None. intros r Hr.
  unfold delete_row in Hr. by apply list_elem_of_filter in Hr as [? _].
Qed.

Lemma first_delete_row_other (k j : Z) (t : Table) :
  j <> k -> first j (delete_row k t) = first j t.
Proof.
  intros Hj. unfold delete_row.
  induction t as [|x t IH]; [done|].
  rewrite filter_cons, first_cons.
  destruct (decide (id x <> k)) as [E|E].
  - rewrite first_cons. by destruct (decide (id x = j)).
  - destruct (decide (id x = j)); [lia | done].
Qed.

Lemma foldr_max_ge (m : Z) (t : Table) :
  m <= foldr (fun r' m' => Z.max (id r') m') m t
  /\ forall r, r ∈ t -> id r <= foldr (fun r' m' => Z.max (id r') m') m t.
Proof.
  induction t as [|x t [IH1 IH2]]; simpl.
  - split; [lia|]. intros r Hr. by apply elem_of_nil in Hr.
  - split; [lia|]. intros r Hr.
    apply elem_of_cons in Hr as [->|Hr]; [lia|].
    specialize (IH2 r Hr). lia.
Qed.

(** The key of a new row is above every key in the table. *)
Lemma next_rowid_above (t : Table) (r : Subscription) :
  r ∈ t -> id r < next_rowid t.
Proof.
  destruct t as [|x t]; [intros Hr; by apply elem_of_nil in Hr|].
  intros Hr. unfold next_rowid.
  destruct (foldr_max_ge (id x) t) as [H1 H2].
  apply elem_of_cons in Hr as [->|Hr]; [lia|].
  specialize (H2 r Hr). lia.
Qed.

Lemma next_rowid_fresh (t : Table) : first (next_rowid t) t = None.
Proof.
  apply first_None. intros r Hr. apply next_rowid_above in Hr. lia.
Qed.

(** Keys that start in [1..n] stay in [1..n+1] after an insertion: the
    keys of a table filled from the empty one are bounded by the number
    of insertions. *)
Lemma next_rowid_bounded (n : Z) (t : Table) :
  0 <= n ->
  (forall r, r ∈ t -> 1 <= id r <= n) -> 1 <= next_rowid t <= n + 1.
Proof.
  intros Hn H. destruct t as [|x t]; simpl; [lia|].
  assert (Hx : 1 <= id x <= n) by (apply H, list_elem_of_here).
  assert (Hm : foldr (fun r' m' => Z.max (id r') m') (id x) t <= n).
  { assert (Ht : forall r, r ∈ t -> id r <= n).
    { intros r Hr. apply H. by apply list_elem_of_further. }
    clear H. induction t as [|y t IH]; simpl; [lia|].
    assert (id y <= n) by (apply Ht, list_elem_of_here).
    assert (foldr (fun r' m' => Z.max (id r') m') (id x) t <= n).
    { apply IH. intros r Hr. apply Ht. by apply list_elem_of_further. }
    lia. }
  destruct (foldr_max_ge (id x) t) as [H1 _]. lia.
Qed.

End StoreFacts.

(** ** Authentication *)

Module AuthFacts.
Import Registry AuthSpec.

Lemma truthy_non_empty (o : option string) :
  (if truthy o then o else None) = non_empty o.
Proof.
  destruct o as [s|]; simpl; [|done]. by destruct (String.eqb s "").
Qed.

Lemma truthy_Some (o : option string) :
  truthy o = true -> non_empty o = o.
Proof.
  destruct o as [s|]; simpl; [|done]. by destruct (String.eqb s "").
Qed.

Lemma truthy_None (o : option string) :
  truthy o = false -> non_empty o = None.
Proof.
  destruct o as [s|]; simpl; [|done]. by destruct (String.eqb s "").
Qed.

Lemma final_test (t : string) :
  (if negb (truthy (Some t)) || negb (String.eqb t VALID_TOKEN)
   then unauthorized else Ok t) = check (Some t).
Proof.
  simpl. destruct (String.eqb_spec t "") as [->|_]; simpl; [done|].
  by destruct (String.eqb t VALID_TOKEN).
Qed.

(** [authenticate] tests the first source that counts. *)
Lemma authenticate_first_match (a : Credentials) :
  run_authenticate a = check (first_match (sources a)).
Proof.
  unfold run_authenticate, authenticate, sources.
  destruct a as [[[s c]|] x p]; simpl.
  - destruct (String.eqb s "Bearer"); simpl; [apply final_test|].
    destruct (truthy x) eqn:Hx.
    + rewrite (truthy_Some x Hx). destruct x as [t|]; [|done].
      apply final_test.
    + rewrite (truthy_None x Hx). destruct (truthy p) eqn:Hp.
      * rewrite (truthy_Some p Hp). destruct p as [t|]; [|done].
        apply final_test.
      * by rewrite (truthy_None p Hp).
  - destruct (truthy x) eqn:Hx.
    + rewrite (truthy_Some x Hx). destruct x as [t|]; [|done].
      apply final_test.
    + rewrite (truthy_None x Hx). destruct (truthy p) eqn:Hp.
      * rewrite (truthy_Some p Hp). destruct p as [t|]; [|done].
        apply final_test.
      * by rewrite (truthy_None p Hp).
Qed.

Lemma check_rejects (o : option string) :
  o <> Some VALID_TOKEN -> check o = unauthorized.
Proof.
  destruct o as [t|]; simpl; [|done]. intros H.
  destruct (String.eqb_spec t VALID_TOKEN) as [->|_]; done.
Qed.

Lemma check_accepts (o : option string) (t : string) :
  check o = Ok t -> o = Some VALID_TOKEN /\ t = VALID_TOKEN.
Proof.
  destruct o as [s|]; simpl; [|done].
  destruct (String.eqb_spec s VALID_TOKEN) as [->|_]; [|done].
  intros H. by injection H as <-.
Qed.

Section WithClock.
Variable isoformat : datetime -> string.

(** A request that fails authentication is answered before the
    handler runs: nothing in the state changes. *)
Lemma serve_unauthorized (a : Credentials) (q : Request) (now : datetime)
    (net : Network) (w : World) (e : error) :
  run_authenticate a = Raise e ->
  serve isoformat a q now net w = (Raise e, w).
Proof.
  unfold run_authenticate. intros H.
  destruct q; unfold serve, fmap_M, list_subscriptions,
    create_subscription, update_subscription, delete_subscription,
    notify_subscription, bind, Depends_authenticate, lift;
    by rewrite H.
Qed.

(** C3, as the code has it.  The token tested is the one of the first
    source that counts, in the order [Authorization] (scheme spelled
    [Bearer]), [x-access-token] (non-empty), [plain_token] (non-empty);
    when there is none, or it is not the configured secret, every
    request is answered 401 and leaves the table, the record of
    session calls and the outbox as they were.  In particular a wrong
    token under [Authorization: Bearer] is refused whatever the other
    two sources carry. *)
Theorem authenticate_precedence (a : Credentials) (q : Request)
    (now : datetime) (net : Network) (w : World) :
  run_authenticate a = check (first_match (sources a))
  /\ (first_match (sources a) <> Some VALID_TOKEN ->
      serve isoformat a q now net w = (unauthorized, w))
  /\ (forall t, authorization a = Some (mkHTTPAuthorizationCredentials "Bearer" t) ->
      t <> VALID_TOKEN ->
      serve isoformat a q now net w = (unauthorized, w)).
Proof.
  pose proof (authenticate_first_match a) as Hc.
  split; [done|]. split.
  - intros H. apply serve_unauthorized.
    rewrite Hc. by apply check_rejects.
  - intros t Ht Hne. apply serve_unauthorized.
    rewrite Hc. apply check_rejects.
    unfold sources. rewrite Ht. simpl. congruence.
Qed.
End WithClock.

End AuthFacts.

(** ** The registry's endpoints *)

Module RegistryFacts.
Import Registry AuthSpec RegistrySpec StoreFacts AuthFacts.

Ltac run_handler H :=
  unfold list_subscriptions, create_subscription, update_subscription,
    delete_subscription, notify_subscription, refresh, query_first, bind,
    Depends_authenticate, lift, session, rows, write, post, ret, raise;
  unfold run_authenticate in H; rewrite H; cbn [db calls outbox].

(** *** create *)

Lemma create_subscription_run (a : Credentials) (tok url : string)
    (e : field string) (now : datetime) (w : World) :
  run_authenticate a = Ok tok ->
  let row := mkSubscription (next_rowid (db w)) url (optional e) now
               (Some true) in
  create_subscription a (mkCreateBody (Val url) e) now w
  = (Ok (response_of row true),
     mkWorld (db w ++ [row])
       (calls w ++ [Add; Commit; Refresh (next_rowid (db w))]) (outbox w)).
Proof.
  intros H row. run_handler H.
  unfold validate_create. cbn [cb_notification_url cb_event_type
    sc_notification_url sc_event_type].
  fold (optional e). fold row.
  rewrite (first_app_new _ _ row (next_rowid_fresh (db w)) eq_refl).
  unfold respond. cbn. by rewrite <- !app_assoc.
Qed.

Lemma respond_all_elem (t : Table) (l : list SubscriptionResponse)
    (r : Subscription) (x : SubscriptionResponse) :
  respond_all t = Ok l -> r ∈ t -> respond r = Ok x -> x ∈ l.
Proof.
  revert l. induction t as [|y t IH]; intros l Hl Hr Hx.
  - by apply elem_of_nil in Hr.
  - simpl in Hl. destruct (respond y) as [x'|] eqn:Hy; [|done].
    destruct (respond_all t) as [xs|] eqn:Ht; [|done].
    injection Hl as <-.
    apply elem_of_cons in Hr as [->|Hr].
    + rewrite Hx in Hy. injection Hy as <-. apply list_elem_of_here.
    + apply list_elem_of_further. by apply (IH xs).
Qed.

(** C2.  With valid credentials, [create_subscription] accepts every
    string as [notification_url] and refuses a body without the key;
    when it accepts, the row gets a key that no row of the table has, the
    clock reading as [created_at] and [is_active = true], the row is in
    the table afterwards (and in every listing of it), and the reply is
    that row. *)
Theorem create_subscription_spec (a : Credentials) (tok : string)
    (e : field string) (now : datetime) (w : World) :
  run_authenticate a = Ok tok ->
  (forall url,
     let row := mkSubscription (next_rowid (db w)) url (optional e) now
                  (Some true) in
     exists w',
       create_subscription a (mkCreateBody (Val url) e) now w
       = (Ok (response_of row true), w')
       /\ first (id row) (db w) = None
       /\ db w' = db w ++ [row]
       /\ first (id row) (db w') = Some row
       /\ outbox w' = outbox w
       /\ (forall l w'', list_subscriptions a w' = (Ok l, w'') ->
           response_of row true ∈ l))
  /\ create_subscription a (mkCreateBody Unset e) now w
     = (Raise (RequestValidationError "notification_url"), w).
Proof.
  intros H. split.
  - intros url row. eexists.
    split; [by apply (create_subscription_run a tok)|].
    cbn [db outbox]. split; [apply next_rowid_fresh|]. split; [done|].
    split; [apply first_app_new; [apply next_rowid_fresh | done]|].
    split; [done|]. intros l w''.
    run_handler H.
    intros Hl. injection Hl as Hl _.
    apply (respond_all_elem _ _ row _ Hl); [|done].
    apply elem_of_app. right. apply list_elem_of_here.
  - run_handler H. reflexivity.
Qed.

(** *** update *)

(** The object after the loop over [update_data]. *)
Lemma setattr_loop (r : Subscription) (u : SubscriptionUpdate) :
  foldl setattr (load r) (dict_exclude_unset u)
  = mkInstance (id r)
      (patched (su_notification_url u) (Some (notification_url r)))
      (patched (su_event_type u) (event_type r))
      (created_at r)
      (patched (su_is_active u) (is_active r)).
Proof. by destruct u as [[| |url] [| |e] [| |b]]. Qed.

Lemma update_subscription_run (a : Credentials) (tok : string) (sub_id : Z)
    (u : SubscriptionUpdate) (w : World) (r : Subscription) :
  run_authenticate a = Ok tok ->
  first sub_id (db w) = Some r ->
  update_subscription a sub_id u w
  = match patched (su_notification_url u) (Some (notification_url r)) with
    | Some url =>
        (respond (updated r u url),
         mkWorld (update_row (updated r u url) (db w))
           (calls w ++ [Query_first sub_id; Commit; Refresh sub_id])
           (outbox w))
    | None =>
        (Raise ServerError,
         mkWorld (db w) (calls w ++ [Query_first sub_id; Commit]) (outbox w))
    end.
Proof.
  intros H Hf. run_handler H. rewrite Hf, setattr_loop.
  unfold flush. cbn [i_id i_notification_url i_event_type i_created_at
    i_is_active db calls outbox].
  destruct (patched (su_notification_url u) (Some (notification_url r)))
    as [url|]; [|by rewrite <- !app_assoc].
  fold (updated r u url). cbn [db calls outbox].
  destruct (first_Some _ _ _ Hf) as [<- _].
  pose proof (first_update_row (db w) r (updated r u url) Hf) as Hu.
  cbn [id updated] in Hu. rewrite Hu. by rewrite <- !app_assoc.
Qed.

(** C4.  With valid credentials and a row [r] under [sub_id], the row
    under [sub_id] after [update_subscription] has the key and the
    [created_at] of [r], and the value of [r] in every field the body
    did not supply; when the update is committed (the body does not set
    [notification_url] to [null]), each supplied field has the supplied
    value; the rows under other keys are as before.  In particular a
    body with [event_type] alone changes [event_type] alone. *)
Theorem update_subscription_partial (a : Credentials) (tok : string)
    (sub_id : Z) (u : SubscriptionUpdate) (w : World) (r : Subscription) :
  run_authenticate a = Ok tok ->
  first sub_id (db w) = Some r ->
  let w' := (update_subscription a sub_id u w).2 in
  (exists r',
     first sub_id (db w') = Some r'
     /\ id r' = id r /\ created_at r' = created_at r
     /\ (su_notification_url u = Unset ->
         notification_url r' = notification_url r)
     /\ (su_event_type u = Unset -> event_type r' = event_type r)
     /\ (su_is_active u = Unset -> is_active r' = is_active r)
     /\ (su_notification_url u <> Null ->
         Some (notification_url r')
         = patched (su_notification_url u) (Some (notification_url r))
         /\ event_type r' = patched (su_event_type u) (event_type r)
         /\ is_active r' = patched (su_is_active u) (is_active r)))
  /\ (forall k, k <> sub_id -> first k (db w') = first k (db w))
  /\ (forall e, u = mkSubscriptionUpdate Unset (Val e) Unset ->
      first sub_id (db w')
      = Some (mkSubscription (id r) (notification_url r) (Some e)
                (created_at r) (is_active r))).
Proof.
  intros H Hf w'. subst w'.
  rewrite (update_subscription_run a tok sub_id u w r H Hf).
  destruct (first_Some _ _ _ Hf) as [Hid _].
  destruct (patched (su_notification_url u) (Some (notification_url r)))
    as [url|] eqn:Hurl; cbn [snd db].
  - assert (Hu : first sub_id (update_row (updated r u url) (db w))
                 = Some (updated r u url)).
    { rewrite <- Hid. rewrite <- Hid in Hf.
      apply (first_update_row (db w) r (updated r u url) Hf). }
    split; [|split].
    + exists (updated r u url). rewrite Hu. cbn [updated id created_at
        notification_url event_type is_active].
      repeat split; try done.
      * intros E. rewrite E in Hurl. simpl in Hurl. congruence.
      * intros E. by rewrite E.
      * intros E. by rewrite E.
    + intros k Hk. apply first_update_row_other. cbn [updated id]. lia.
    + intros e ->. rewrite Hu. simpl in Hurl. injection Hurl as <-.
      reflexivity.
  - split; [|split].
    + exists r. split; [done|]. repeat split; try done.
      all: destruct (su_notification_url u); simpl in Hurl; congruence.
    + done.
    + intros e ->. simpl in Hurl. congruence.
Qed.

(** C9.  A field supplied as [null] is a supplied field: the body
    [{"event_type": null}] is the dict with the one entry
    [event_type = None], and the update stores [None] in [event_type],
    whatever the column held, leaving the other columns as they were. *)
Theorem update_subscription_null (a : Credentials) (tok : string)
    (sub_id : Z) (w : World) (r : Subscription) :
  run_authenticate a = Ok tok ->
  first sub_id (db w) = Some r ->
  let body := mkSubscriptionUpdate Unset Null Unset in
  dict_exclude_unset body = [Set_event_type None]
  /\ first sub_id (db (update_subscription a sub_id body w).2)
     = Some (mkSubscription (id r) (notification_url r) None
               (created_at r) (is_active r)).
Proof.
  intros H Hf body. split; [done|].
  rewrite (update_subscription_run a tok sub_id body w r H Hf).
  cbn [body su_notification_url patched snd db].
  destruct (first_Some _ _ _ Hf) as [Hid _].
  rewrite <- Hid. rewrite <- Hid in Hf.
  apply (first_update_row (db w) r (updated r body (notification_url r)) Hf).
Qed.

(** *** delete *)

Lemma delete_subscription_run (a : Credentials) (tok : string) (sub_id : Z)
    (w : World) :
  run_authenticate a = Ok tok ->
  delete_subscription a sub_id w
  = match first sub_id (db w) with
    | Some r =>
        (Ok tt,
         mkWorld (delete_row (id r) (db w))
           (calls w ++ [Query_first sub_id; Delete (id r); Commit])
           (outbox w))
    | None =>
        (no_row sub_id,
         mkWorld (db w) (calls w ++ [Query_first sub_id]) (outbox w))
    end.
Proof.
  intros H. run_handler H. unfold no_row.
  destruct (first sub_id (db w)) as [r|]; [|by destruct (in_int64 sub_id)].
  cbn [db calls outbox]. by rewrite <- !app_assoc.
Qed.

(** *** notify *)

Section WithClock.
Variable isoformat : datetime -> string.

Lemma notify_subscription_run (a : Credentials) (tok : string)
    (sub_id : Z) (now : datetime) (net : Network) (w : World) :
  run_authenticate a = Ok tok ->
  let queried :=
    mkWorld (db w) (calls w ++ [Query_first sub_id]) (outbox w) in
  notify_subscription isoformat a sub_id now net w
  = match first sub_id (db w) with
    | None => (no_row sub_id, queried)
    | Some r =>
        if negb (default false (is_active r))
        then (Raise (HTTPException 400 "Inactive subscription"), queried)
        else
          let json := notification isoformat sub_id r now in
          (match net (notification_url r) json with
           | Raised e => delivery_failed e
           | Responded status_code msg =>
               match raise_for_status status_code msg with
               | Some e => delivery_failed e
               | None => Ok "Notification sent successfully"
               end
           end,
           mkWorld (db w) (calls w ++ [Query_first sub_id])
             (outbox w ++ [(notification_url r, json)]))
    end.
Proof.
  intros H queried. subst queried. run_handler H. unfold no_row.
  destruct (first sub_id (db w)) as [r|]; [|by destruct (in_int64 sub_id)].
  destruct (negb (default false (is_active r))); [done|].
  cbn [db calls outbox].
  destruct (net (notification_url r) (notification isoformat sub_id r now))
    as [e|c msg]; [done|].
  by destruct (raise_for_status c msg).
Qed.

(** C5, as the code has it.  With valid credentials,
    [notify_subscription] answers 404 when [sub_id] is in the signed
    64-bit range and the table has no row under it, and 400 when the row
    is there with [is_active = false]; in both cases nothing is posted and
    the table is as before. *)
Theorem notify_subscription_refuses (a : Credentials) (tok : string)
    (sub_id : Z) (now : datetime) (net : Network) (w : World) :
  run_authenticate a = Ok tok ->
  let out := notify_subscription isoformat a sub_id now net w in
  (in_int64 sub_id = true -> first sub_id (db w) = None ->
   out.1 = not_found /\ outbox out.2 = outbox w /\ db out.2 = db w)
  /\ (forall r, first sub_id (db w) = Some r -> is_active r = Some false ->
      out.1 = Raise (HTTPException 400 "Inactive subscription")
      /\ outbox out.2 = outbox w /\ db out.2 = db w).
Proof.
  intros H out. subst out.
  rewrite (notify_subscription_run a tok sub_id now net w H).
  split.
  - intros Hr ->. unfold no_row. by rewrite Hr.
  - intros r -> Hr. by rewrite Hr.
Qed.


(** C10.  With valid credentials and an active row whose [event_type]
    is [None], the body that [notify_subscription] posts has
    [event_type: null]; the listener refuses that body with a
    validation error on [event_type], whatever its clock and its log,
    and leaves the log as it was. *)
Theorem null_event_type_refused (a : Credentials) (tok : string)
    (sub_id : Z) (now : datetime) (net : Network) (w : World)
    (r : Subscription) :
  run_authenticate a = Ok tok ->
  first sub_id (db w) = Some r ->
  is_active r = Some true ->
  event_type r = None ->
  exists json,
    outbox (notify_subscription isoformat a sub_id now net w).2
    = outbox w ++ [(notification_url r, json)]
    /\ p_event_type json = Null
    /\ forall parse_datetime printing now' log,
         Listener.receive_notification isoformat parse_datetime printing
           json now' log
         = (Raise (RequestValidationError "event_type"), log).
Proof.
  intros H Hf Hact He.
  rewrite (notify_subscription_run a tok sub_id now net w H).
  rewrite Hf, Hact. cbn [default negb snd outbox].
  eexists. split; [done|].
  unfold notification. rewrite He. split; [done|].
  intros parse printing now' log. reflexivity.
Qed.
End WithClock.

End RegistryFacts.

(** ** Keys over the life of the service *)

Module KeyFacts.
Import Registry AuthSpec RegistrySpec Lifetime StoreFacts AuthFacts RegistryFacts.

Lemma create_subscription_key (a : Credentials) (tok : string)
    (body : CreateBody) (now : datetime) (w w' : World)
    (r : SubscriptionResponse) :
  run_authenticate a = Ok tok ->
  create_subscription a body now w = (Ok r, w') ->
  r_id r = next_rowid (db w).
Proof.
  intros H. destruct body as [[| |url] e].
  - by run_handler H.
  - by run_handler H.
  - rewrite (create_subscription_run a tok url e now w H).
    intros E. by injection E as <- _.
Qed.

(** The key assigned at a step of a sequence is the next row id of the
    table at that step. *)
Lemma assigned_key_next_rowid (a : Credentials) (tok : string)
    (ops : list op) (w : World) (j : nat) (k : Z) :
  run_authenticate a = Ok tok ->
  history a ops w !! j = Some (Assigned k) ->
  k = next_rowid (db (run a (take j ops) w)).
Proof.
  intros H. revert w j.
  induction ops as [|o ops IH]; intros w j Hj; [done|].
  destruct j as [|j]; simpl in Hj.
  - injection Hj as Hj. cbn [take run].
    destruct o as [body now|sub_id]; simpl in Hj.
    + destruct (create_subscription a body now w) as [[r|e] w'] eqn:Hc;
        [|done].
      injection Hj as <-.
      by apply (create_subscription_key a tok body now w w').
    + by destruct (delete_subscription a sub_id w) as [[?|?] ?].
  - apply (IH _ _ Hj).
Qed.

End KeyFacts.

(** ** Worked requests *)

Module Examples.
Import Registry AuthSpec RegistrySpec Lifetime Samples.
Import StoreFacts AuthFacts RegistryFacts KeyFacts.

(** A creation, the deletion of the row created, a second creation: the
    second creation is given the key the first one had. *)
Lemma key_reused_counterexample :
  history bearer_ok create_delete_create empty
  = [Assigned 1; Deleted 1; Assigned 1]
  /\ ~ never_reused (history bearer_ok create_delete_create empty).
Proof.
  split; [reflexivity|].
  intros Hn. apply (Hn 1%nat 2%nat 1); [lia | reflexivity | reflexivity].
Qed.

Lemma create_subscription_spec_witness :
  run_authenticate bearer_ok = Ok "secret-token"
  /\ (create_subscription bearer_ok hook 9 three).1
     = Ok (mkSubscriptionResponse 4 "http://localhost:8001/receive"
             (Some "test") 9 true).
Proof.
  split; [reflexivity|].
  destruct (proj1 (create_subscription_spec bearer_ok "secret-token"
                     (Val "test") 9 three eq_refl)
              "http://localhost:8001/receive") as (w' & Hc & _).
  unfold hook. rewrite Hc. reflexivity.
Defined.

(** A scheme spelled in lower case is handed over by [HTTPBearer] and
    skipped by [authenticate]: the wrong token it carries is the token
    the request presents first, and the request is let in on its
    [x-access-token]. *)
Lemma first_present_source_counterexample :
  presented lower_case_bearer = Some "wrong-token"
  /\ "wrong-token" <> VALID_TOKEN
  /\ run_authenticate lower_case_bearer = Ok "secret-token".
Proof. split; [reflexivity|]. split; [done | reflexivity]. Qed.

(** An empty [x-access-token] is skipped in the same way. *)
Example empty_header_skipped :
  run_authenticate (mkCredentials None (Some "") (Some "secret-token"))
  = Ok "secret-token".
Proof. reflexivity. Qed.

Lemma authenticate_precedence_witness :
  first_match (sources wrong_bearer) <> Some VALID_TOKEN
  /\ serve still_clock wrong_bearer (DELETE_subscription 1) 0 refuses three
     = (unauthorized, three).
Proof.
  assert (H : first_match (sources wrong_bearer) <> Some VALID_TOKEN)
    by (simpl; discriminate).
  split; [exact H|].
  apply (authenticate_precedence still_clock wrong_bearer
           (DELETE_subscription 1) 0 refuses three). exact H.
Defined.

Lemma update_subscription_partial_witness :
  run_authenticate bearer_ok = Ok "secret-token"
  /\ first 1 (db three) = Some row1
  /\ first 1 (db (update_subscription bearer_ok 1
                    (mkSubscriptionUpdate Unset (Val "other") Unset)
                    three).2)
     = Some (mkSubscription 1 "http://localhost:8001/receive" (Some "other")
               0 (Some true)).
Proof.
  split; [reflexivity|]. split; [reflexivity|].
  apply (update_subscription_partial bearer_ok "secret-token" 1
           (mkSubscriptionUpdate Unset (Val "other") Unset) three row1);
    reflexivity.
Defined.

Lemma update_subscription_null_witness :
  run_authenticate bearer_ok = Ok "secret-token"
  /\ first 1 (db three) = Some row1
  /\ first 1 (db (update_subscription bearer_ok 1
                    (mkSubscriptionUpdate Unset Null Unset) three).2)
     = Some (mkSubscription 1 "http://localhost:8001/receive" None 0
               (Some true)).
Proof.
  split; [reflexivity|]. split; [reflexivity|].
  apply (update_subscription_null bearer_ok "secret-token" 1 three row1);
    reflexivity.
Defined.

Lemma notify_subscription_refuses_witness :
  run_authenticate bearer_ok = Ok "secret-token"
  /\ in_int64 9 = true
  /\ first 9 (db three) = None
  /\ first 3 (db three) = Some row3
  /\ is_active row3 = Some false
  /\ (notify_subscription still_clock bearer_ok 9 9 refuses three).1
     = not_found
  /\ (notify_subscription still_clock bearer_ok 3 9 refuses three).1
     = Raise (HTTPException 400 "Inactive subscription").
Proof.
  split; [reflexivity|]. split; [reflexivity|]. split; [reflexivity|].
  split; [reflexivity|]. split; [reflexivity|]. split.
  - apply (proj1 (notify_subscription_refuses still_clock bearer_ok
                    "secret-token" 9 9 refuses three eq_refl));
      reflexivity.
  - apply (proj2 (notify_subscription_refuses still_clock bearer_ok
                    "secret-token" 3 9 refuses three eq_refl) row3);
      reflexivity.
Defined.

(** An id one above the signed 64-bit range names no subscription, and
    the request is answered with a server error (500), not with 404: the
    query cannot carry the id. *)
Lemma unknown_id_out_of_range_counterexample :
  first 9223372036854775808 (db three) = None
  /\ in_int64 9223372036854775808 = false
  /\ (notify_subscription still_clock bearer_ok 9223372036854775808 9
        refuses three).1
     = Raise ServerError
  /\ http_status ServerError = 500
  /\ (notify_subscription still_clock bearer_ok 9223372036854775808 9
        refuses three).1
     <> not_found.
Proof. repeat split; discriminate. Qed.



Lemma null_event_type_refused_witness :
  run_authenticate bearer_ok = Ok "secret-token"
  /\ first 2 (db three) = Some row2
  /\ is_active row2 = Some true
  /\ event_type row2 = None
  /\ exists json,
       outbox (notify_subscription still_clock bearer_ok 2 9 refuses three).2
       = outbox three ++ [(notification_url row2, json)]
       /\ p_event_type json = Null
       /\ forall parse_datetime printing now' log,
            Listener.receive_notification still_clock parse_datetime printing
              json now' log
            = (Raise (RequestValidationError "event_type"), log).
Proof.
  split; [reflexivity|]. split; [reflexivity|]. split; [reflexivity|].
  split; [reflexivity|].
  apply (null_event_type_refused still_clock bearer_ok "secret-token" 2 9
           refuses three row2); reflexivity.
Defined.

End Examples.

(** ** More on the store *)

Module TableFacts.
Import Registry Invariants StoreFacts.

Lemma ids_update_row (r' : Subscription) (t : Table) :
  id <$> update_row r' t = id <$> t.
Proof.
  unfold update_row. induction t as [|x t IH]; [done|].
  rewrite !fmap_cons, IH. by destruct (decide (id x = id r')) as [->|].
Qed.

Lemma update_row_idempotent (r' : Subscription) (t : Table) :
  update_row r' (update_row r' t) = update_row r' t.
Proof.
  unfold update_row. induction t as [|x t IH]; [done|].
  rewrite !fmap_cons, IH. f_equal.
  destruct (decide (id x = id r')) as [E|E].
  - by destruct (decide (id r' = id r')).
  - by destruct (decide (id x = id r')).
Qed.

Lemma update_row_absent (r' : Subscription) (t : Table) :
  (forall x, x ∈ t -> id x <> id r') -> update_row r' t = t.
Proof.
  unfold update_row. induction t as [|x t IH]; intros H; [done|].
  rewrite fmap_cons, IH.
  - destruct (decide (id x = id r')) as [E|E]; [|done].
    destruct (H x); [apply list_elem_of_here | done].
  - intros y Hy. apply H. by apply list_elem_of_further.
Qed.

(** Under the primary key, writing back the row that is there changes
    nothing. *)
Lemma update_row_same (r : Subscription) (t : Table) :
  unique_ids t -> first (id r) t = Some r -> update_row r t = t.
Proof.
  unfold unique_ids. induction t as [|x t IH]; [done|].
  rewrite fmap_cons, NoDup_cons, first_cons. intros [Hx Ht].
  unfold update_row. rewrite fmap_cons. fold (update_row r t).
  destruct (decide (id x = id r)) as [E|E]; intros Hf.
  - injection Hf as ->. f_equal. apply update_row_absent.
    intros y Hy Ey. apply Hx. rewrite <- Ey. by apply list_elem_of_fmap_2.
  - f_equal. by apply IH.
Qed.

Lemma unique_ids_update_row (r' : Subscription) (t : Table) :
  unique_ids t -> unique_ids (update_row r' t).
Proof. unfold unique_ids. by rewrite ids_update_row. Qed.

Lemma unique_ids_delete_row (k : Z) (t : Table) :
  unique_ids t -> unique_ids (delete_row k t).
Proof.
  unfold unique_ids, delete_row. induction t as [|x t IH]; [done|].
  rewrite fmap_cons, NoDup_cons, filter_cons. intros [Hx Ht].
  destruct (decide (id x <> k)); [|by apply IH].
  rewrite fmap_cons, NoDup_cons. split; [|by apply IH].
  intros Hin. apply Hx.
  apply list_elem_of_fmap in Hin as (y & -> & Hy).
  apply list_elem_of_filter in Hy as [_ Hy]. by apply list_elem_of_fmap_2.
Qed.

Lemma unique_ids_insert (r : Subscription) (t : Table) :
  unique_ids t -> first (id r) t = None -> unique_ids (t ++ [r]).
Proof.
  unfold unique_ids. intros Ht Hf. rewrite fmap_app, NoDup_app.
  split; [done|]. split; [|apply NoDup_singleton].
  intros k Hk Hr. apply list_elem_of_singleton in Hr as ->.
  apply list_elem_of_fmap in Hk as (y & E & Hy).
  by apply (proj1 (first_None (id r) t) Hf y).
Qed.

(** The key of a new row is the key of a row of the table plus one. *)
Lemma foldr_max_attained (x : Subscription) (t : Table) :
  exists r, r ∈ x :: t
    /\ foldr (fun r' m' => Z.max (id r') m') (id x) t = id r.
Proof.
  induction t as [|y t (r & Hr & E)]; simpl.
  - exists x. split; [apply list_elem_of_here | done].
  - rewrite E. destruct (Z.max_spec (id y) (id r)) as [[_ ->]|[_ ->]].
    + exists r. split; [|done].
      apply elem_of_cons in Hr as [->|Hr]; [apply list_elem_of_here|].
      by do 2 apply list_elem_of_further.
    + exists y. split; [|done].
      apply list_elem_of_further, list_elem_of_here.
Qed.

(** After a row with the largest key is appended, the next key is one
    more than that key. *)
Lemma next_rowid_insert (r : Subscription) (t : Table) :
  (forall x, x ∈ t -> id x < id r) -> next_rowid (t ++ [r]) = id r + 1.
Proof.
  intros H. destruct t as [|x t]; [done|].
  assert (Hr : r ∈ (x :: t) ++ [r]).
  { apply elem_of_app. right. apply list_elem_of_here. }
  pose proof (next_rowid_above _ _ Hr) as Hup.
  rewrite <- app_comm_cons in *. unfold next_rowid in *.
  destruct (foldr_max_attained x (t ++ [r])) as (m & Hm & E).
  rewrite E in *. rewrite app_comm_cons in Hm.
  apply elem_of_app in Hm as [Hm|Hm].
  - specialize (H m Hm). lia.
  - apply list_elem_of_singleton in Hm as ->. done.
Qed.

End TableFacts.

(** ** What one request does to the state *)

Module HandlerFacts.
Import Registry AuthSpec RegistrySpec Invariants.
Import StoreFacts AuthFacts RegistryFacts TableFacts.

Lemma fmap_M_run {A B : Type} (f : A -> B) (m : M A) (w : World) :
  fmap_M f m w
  = (match (m w).1 with Ok x => Ok (f x) | Raise e => Raise e end, (m w).2).
Proof. unfold fmap_M, bind, ret. by destruct (m w) as [[x|e] w']. Qed.

Lemma list_subscriptions_run (a : Credentials) (tok : string) (w : World) :
  run_authenticate a = Ok tok ->
  list_subscriptions a w
  = (respond_all (db w), mkWorld (db w) (calls w ++ [Query_all]) (outbox w)).
Proof. intros H. by run_handler H. Qed.

Lemma create_subscription_rejected (a : Credentials) (tok : string)
    (body : CreateBody) (now : datetime) (w : World) :
  run_authenticate a = Ok tok ->
  optional (cb_notification_url body) = None ->
  create_subscription a body now w
  = (Raise (RequestValidationError "notification_url"), w).
Proof.
  intros H Hb. run_handler H. unfold validate_create.
  by destruct (cb_notification_url body).
Qed.

Lemma update_subscription_missing (a : Credentials) (tok : string)
    (sub_id : Z) (u : SubscriptionUpdate) (w : World) :
  run_authenticate a = Ok tok ->
  first sub_id (db w) = None ->
  update_subscription a sub_id u w
  = (no_row sub_id,
     mkWorld (db w) (calls w ++ [Query_first sub_id]) (outbox w)).
Proof.
  intros H Hf. run_handler H. rewrite Hf. unfold no_row.
  by destruct (in_int64 sub_id).
Qed.

(** The replies of a listing: one per row, in the order of the table,
    unless a row has no boolean in [is_active]. *)
Lemma respond_all_Ok (t : Table) :
  (forall r, r ∈ t -> is_active r <> None) ->
  exists l,
    respond_all t = Ok l
    /\ length l = length t
    /\ forall (i : nat) r, t !! i = Some r ->
         exists b, is_active r = Some b /\ l !! i = Some (response_of r b).
Proof.
  induction t as [|x t IH]; intros H.
  - exists []. by repeat split.
  - destruct IH as (l & Hl & Hlen & Hi).
    { intros r Hr. apply H. by apply list_elem_of_further. }
    destruct (is_active x) as [b|] eqn:Hb.
    2:{ destruct (H x); [apply list_elem_of_here | done]. }
    exists (response_of x b :: l). simpl. unfold respond at 1.
    rewrite Hb, Hl. fold (response_of x b). split; [done|].
    split; [simpl; by rewrite Hlen|].
    intros [|i] r Hr; simpl in Hr.
    + injection Hr as <-. by exists b.
    + by apply Hi.
Qed.

Lemma respond_all_Raise (t : Table) (r : Subscription) :
  r ∈ t -> is_active r = None -> respond_all t = Raise ServerError.
Proof.
  induction t as [|x t IH]; intros Hr Hn.
  - by apply elem_of_nil in Hr.
  - simpl. apply elem_of_cons in Hr as [<-|Hr].
    + unfold respond. by rewrite Hn.
    + rewrite (IH Hr Hn). unfold respond. by destruct (is_active x).
Qed.

Section WithClock.
Variable isoformat : datetime -> string.

(** The table after one request: as before, or with the new row at its
    end, or with one row rewritten, or with the rows of one key removed. *)
Lemma serve_table (a : Credentials) (q : Request) (now : datetime)
    (net : Network) (w : World) :
  let t' := db (serve isoformat a q now net w).2 in
  t' = db w
  \/ (exists body url,
        q = POST_subscriptions body
        /\ t' = db w ++ [mkSubscription (next_rowid (db w)) url
                           (optional (cb_event_type body)) now (Some true)])
  \/ (exists sub_id u r url,
        q = PATCH_subscription sub_id u
        /\ first sub_id (db w) = Some r
        /\ t' = update_row (updated r u url) (db w))
  \/ (exists sub_id r,
        q = DELETE_subscription sub_id
        /\ first sub_id (db w) = Some r
        /\ t' = delete_row (id r) (db w)).
Proof.
  intros t'. subst t'.
  destruct (run_authenticate a) as [tok|e] eqn:H.
  2:{ left. by rewrite (serve_unauthorized isoformat a q now net w e H). }
  destruct q as [|body|sub_id u|sub_id|sub_id]; unfold serve;
    rewrite fmap_M_run; cbn [snd].
  - left. by rewrite (list_subscriptions_run a tok w H).
  - destruct body as [[| |url] ev].
    + left. by rewrite (create_subscription_rejected a tok _ now w H).
    + left. by rewrite (create_subscription_rejected a tok _ now w H).
    + right. left. exists (mkCreateBody (Val url) ev), url.
      by rewrite (create_subscription_run a tok url ev now w H).
  - destruct (first sub_id (db w)) as [r|] eqn:Hf.
    + rewrite (update_subscription_run a tok sub_id u w r H Hf).
      destruct (patched (su_notification_url u) (Some (notification_url r)))
        as [url|]; [|by left].
      right. right. left. by exists sub_id, u, r, url.
    + left. by rewrite (update_subscription_missing a tok sub_id u w H Hf).
  - rewrite (delete_subscription_run a tok sub_id w H).
    destruct (first sub_id (db w)) as [r|] eqn:Hf; [|by left].
    right. right. right. by exists sub_id, r.
  - left. rewrite (notify_subscription_run isoformat a tok sub_id now net w H).
    destruct (first sub_id (db w)) as [r|]; [|done].
    by destruct (negb (default false (is_active r))).
Qed.

(** The outbox after one request: as before, or with one more POST, for
    a notify request on a row whose [is_active] is true. *)
Lemma serve_outbox (a : Credentials) (q : Request) (now : datetime)
    (net : Network) (w : World) :
  let o' := outbox (serve isoformat a q now net w).2 in
  o' = outbox w
  \/ (exists sub_id r,
        q = POST_notify sub_id
        /\ first sub_id (db w) = Some r
        /\ is_active r = Some true
        /\ o' = outbox w
                ++ [(notification_url r, notification isoformat sub_id r now)]).
Proof.
  intros o'. subst o'.
  destruct (run_authenticate a) as [tok|e] eqn:H.
  2:{ left. by rewrite (serve_unauthorized isoformat a q now net w e H). }
  destruct q as [|body|sub_id u|sub_id|sub_id]; unfold serve;
    rewrite fmap_M_run; cbn [snd].
  - left. by rewrite (list_subscriptions_run a tok w H).
  - left. destruct body as [[| |url] ev].
    + by rewrite (create_subscription_rejected a tok _ now w H).
    + by rewrite (create_subscription_rejected a tok _ now w H).
    + by rewrite (create_subscription_run a tok url ev now w H).
  - left. destruct (first sub_id (db w)) as [r|] eqn:Hf.
    + rewrite (update_subscription_run a tok sub_id u w r H Hf).
      by destruct (patched (su_notification_url u)
                     (Some (notification_url r))).
    + by rewrite (update_subscription_missing a tok sub_id u w H Hf).
  - left. rewrite (delete_subscription_run a tok sub_id w H).
    by destruct (first sub_id (db w)).
  - rewrite (notify_subscription_run isoformat a tok sub_id now net w H).
    destruct (first sub_id (db w)) as [r|] eqn:Hf; [|by left].
    destruct (is_active r) as [[|]|] eqn:Hact; cbn [default negb];
      [|by left|by left].
    right. by exists sub_id, r.
Qed.
End WithClock.

End HandlerFacts.

(** ** Further properties of the registry *)

Module RegistryMore.
Import Registry AuthSpec RegistrySpec Invariants Lifetime.
Import StoreFacts AuthFacts RegistryFacts TableFacts HandlerFacts.

Lemma patched_twice {A : Type} (f : field A) (old : option A) :
  patched f (patched f old) = patched f old.
Proof. by destruct f. Qed.

(** X1.  With valid credentials and a row under [sub_id],
    [delete_subscription] succeeds; afterwards no row is under [sub_id],
    the rows under every other key are as before, and nothing was
    posted. *)
Theorem delete_subscription_removes (a : Credentials) (tok : string)
    (sub_id : Z) (w : World) (r : Subscription) :
  run_authenticate a = Ok tok ->
  first sub_id (db w) = Some r ->
  let out := delete_subscription a sub_id w in
  out.1 = Ok tt
  /\ first sub_id (db out.2) = None
  /\ (forall k, k <> sub_id -> first k (db out.2) = first k (db w))
  /\ outbox out.2 = outbox w.
Proof.
  intros H Hf out. subst out.
  rewrite (delete_subscription_run a tok sub_id w H), Hf. cbn [fst snd db outbox].
  destruct (first_Some _ _ _ Hf) as [-> _].
  split; [done|]. split; [apply first_delete_row|]. split; [|done].
  intros k Hk. by apply first_delete_row_other.
Qed.

(** X2.  Deleting the same key twice: the first call succeeds, the second
    is answered as a key without a row and leaves the table as the first
    call left it.  The answer is 404 for every key in the signed 64-bit
    range, the range of the keys a row of the store can have. *)
Theorem delete_subscription_twice (a : Credentials) (tok : string)
    (sub_id : Z) (w : World) (r : Subscription) :
  run_authenticate a = Ok tok ->
  first sub_id (db w) = Some r ->
  let out1 := delete_subscription a sub_id w in
  let out2 := delete_subscription a sub_id out1.2 in
  out1.1 = Ok tt
  /\ out2.1 = no_row sub_id
  /\ (in_int64 sub_id = true -> out2.1 = not_found)
  /\ db out2.2 = db out1.2.
Proof.
  intros H Hf out1 out2. subst out2 out1.
  rewrite (delete_subscription_run a tok sub_id w H), Hf. cbn [fst snd].
  rewrite (delete_subscription_run a tok sub_id _ H). cbn [db].
  destruct (first_Some _ _ _ Hf) as [-> _].
  rewrite first_delete_row. cbn [fst snd db].
  split; [done|]. split; [done|]. split; [|done].
  intros Hr. unfold no_row. by rewrite Hr.
Qed.

(** X3.  With valid credentials and no row under [sub_id], both
    [update_subscription] and [delete_subscription] are answered 404 when
    [sub_id] is in the signed 64-bit range and with a server error when it
    is not (the query cannot carry it); in both cases neither changes the
    table or posts anything. *)
Theorem missing_key_not_found (a : Credentials) (tok : string) (sub_id : Z)
    (u : SubscriptionUpdate) (w : World) :
  run_authenticate a = Ok tok ->
  first sub_id (db w) = None ->
  let upd := update_subscription a sub_id u w in
  let del := delete_subscription a sub_id w in
  (in_int64 sub_id = true -> upd.1 = not_found /\ del.1 = not_found)
  /\ (in_int64 sub_id = false ->
      upd.1 = Raise ServerError /\ del.1 = Raise ServerError)
  /\ db upd.2 = db w /\ outbox upd.2 = outbox w
  /\ db del.2 = db w /\ outbox del.2 = outbox w.
Proof.
  intros H Hf upd del. subst upd del.
  rewrite (update_subscription_missing a tok sub_id u w H Hf).
  rewrite (delete_subscription_run a tok sub_id w H), Hf.
  cbn [fst snd db outbox]. unfold no_row.
  split; [by intros ->|]. split; [by intros ->|]. done.
Qed.

(** X4.  A PATCH body that sets [notification_url] to [null] cannot be
    committed ([notification_url] is [nullable=False]): the request fails
    with a server error and the table is unchanged, whatever else the body
    sets. *)
Theorem update_null_url_fails (a : Credentials) (tok : string) (sub_id : Z)
    (u : SubscriptionUpdate) (w : World) (r : Subscription) :
  run_authenticate a = Ok tok ->
  first sub_id (db w) = Some r ->
  su_notification_url u = Null ->
  let out := update_subscription a sub_id u w in
  out.1 = Raise ServerError /\ http_status ServerError = 500
  /\ db out.2 = db w /\ outbox out.2 = outbox w.
Proof.
  intros H Hf Hu out. subst out.
  rewrite (update_subscription_run a tok sub_id u w r H Hf), Hu. done.
Qed.

(** X5.  A PATCH body that sets [is_active] to [null] (and does not set
    [notification_url] to [null]) is committed and then fails in the
    reply: the request is answered with a server error, yet the row under
    [sub_id] now has NULL in [is_active], with [notification_url] and
    [event_type] as the body set them (as they were where it did not), and
    [id] and [created_at] as they were. *)
Theorem update_null_is_active_stored (a : Credentials) (tok : string)
    (sub_id : Z) (u : SubscriptionUpdate) (w : World) (r : Subscription) :
  run_authenticate a = Ok tok ->
  first sub_id (db w) = Some r ->
  su_is_active u = Null ->
  su_notification_url u <> Null ->
  let out := update_subscription a sub_id u w in
  out.1 = Raise ServerError
  /\ exists r',
       first sub_id (db out.2) = Some r'
       /\ is_active r' = None
       /\ Some (notification_url r')
          = patched (su_notification_url u) (Some (notification_url r))
       /\ event_type r' = patched (su_event_type u) (event_type r)
       /\ id r' = id r /\ created_at r' = created_at r.
Proof.
  intros H Hf Ha Hu out. subst out.
  rewrite (update_subscription_run a tok sub_id u w r H Hf).
  destruct (patched (su_notification_url u) (Some (notification_url r)))
    as [url|] eqn:Hurl.
  2:{ destruct (su_notification_url u); simpl in Hurl; congruence. }
  cbn [fst snd db]. split.
  - unfold respond, updated. cbn [is_active]. by rewrite Ha.
  - exists (updated r u url).
    destruct (first_Some _ _ _ Hf) as [Hid _].
    split.
    + rewrite <- Hid. rewrite <- Hid in Hf.
      apply (first_update_row (db w) r (updated r u url) Hf).
    + unfold updated.
      cbn [is_active notification_url event_type id created_at].
      by rewrite Ha.
Qed.

(** X7.  With valid credentials and a boolean in [is_active] of every
    row, [list_subscriptions] replies with one record per row, in the
    order of the table and with the fields of the row, and leaves the
    table and the outbox as they were. *)
Theorem list_subscriptions_replies (a : Credentials) (tok : string)
    (w : World) :
  run_authenticate a = Ok tok ->
  (forall r, r ∈ db w -> is_active r <> None) ->
  let out := list_subscriptions a w in
  (exists l,
     out.1 = Ok l
     /\ length l = length (db w)
     /\ forall (i : nat) r, db w !! i = Some r ->
          exists b, is_active r = Some b /\ l !! i = Some (response_of r b))
  /\ db out.2 = db w /\ outbox out.2 = outbox w.
Proof.
  intros H Hall out. subst out.
  rewrite (list_subscriptions_run a tok w H). cbn [fst snd db outbox].
  split; [|done]. by apply respond_all_Ok.
Qed.

Section WithClock.
Variable isoformat : datetime -> string.

(** X6.  A row with NULL in [is_active] counts as inactive and cannot be
    listed: with valid credentials, [notify_subscription] on its key is
    answered 400 without a POST, and [list_subscriptions] fails with a
    server error for the whole table. *)
Theorem null_is_active_row (a : Credentials) (tok : string) (sub_id : Z)
    (now : datetime) (net : Network) (w : World) (r : Subscription) :
  run_authenticate a = Ok tok ->
  first sub_id (db w) = Some r ->
  is_active r = None ->
  let out := notify_subscription isoformat a sub_id now net w in
  out.1 = Raise (HTTPException 400 "Inactive subscription")
  /\ outbox out.2 = outbox w
  /\ (list_subscriptions a w).1 = Raise ServerError.
Proof.
  intros H Hf Hn out. subst out.
  rewrite (notify_subscription_run isoformat a tok sub_id now net w H).
  rewrite Hf, Hn. cbn [default negb fst snd outbox].
  split; [done|]. split; [done|].
  rewrite (list_subscriptions_run a tok w H). cbn [fst].
  destruct (first_Some _ _ _ Hf) as [_ Hr].
  by apply (respond_all_Raise _ r).
Qed.

(** X8.  The primary key is kept: whatever the credentials, the request,
    the clock and the network, a table without two rows of the same [id]
    is left without two rows of the same [id]. *)
Theorem serve_keeps_unique_ids (a : Credentials) (q : Request)
    (now : datetime) (net : Network) (w : World) :
  unique_ids (db w) ->
  unique_ids (db (serve isoformat a q now net w).2).
Proof.
  intros Hu.
  destruct (serve_table isoformat a q now net w)
    as [E|[(body & url & _ & E)|[(k & u & r & url & _ & _ & E)
                                |(k & r & _ & _ & E)]]];
    rewrite E.
  - done.
  - apply unique_ids_insert; [done | apply next_rowid_fresh].
  - by apply unique_ids_update_row.
  - by apply unique_ids_delete_row.
Qed.

(** X9.  What a request never does.  A listing and a notify request
    leave the table as it was; a request that is not a notify request
    posts nothing; and every request adds at most one POST to the outbox
    and removes none. *)
Theorem serve_frame (a : Credentials) (q : Request) (now : datetime)
    (net : Network) (w : World) :
  let out := serve isoformat a q now net w in
  ((q = GET_subscriptions \/ exists sub_id, q = POST_notify sub_id) ->
   db out.2 = db w)
  /\ ((forall sub_id, q <> POST_notify sub_id) -> outbox out.2 = outbox w)
  /\ exists sent, outbox out.2 = outbox w ++ sent /\ (length sent <= 1)%nat.
Proof.
  intros out. subst out. split; [|split].
  - intros Hq.
    destruct (serve_table isoformat a q now net w)
      as [E|[(body & url & Eq & _)|[(k & u & r & url & Eq & _)
                                   |(k & r & Eq & _)]]];
      [done|..]; destruct Hq as [Hq|[k' Hq]]; congruence.
  - intros Hq.
    destruct (serve_outbox isoformat a q now net w)
      as [E|(k & r & Eq & _)]; [done|].
    by destruct (Hq k).
  - destruct (serve_outbox isoformat a q now net w)
      as [E|(k & r & _ & _ & _ & E)]; rewrite E.
    + exists []. rewrite app_nil_r. split; [done | simpl; lia].
    + eexists. split; [done|]. simpl. lia.
Qed.

(** X15.  A subscription that was just created can be notified: with
    valid credentials, creating with [notification_url = url] and then
    notifying the key the creation returned makes one POST, to [url], with
    that key as [subscription_id] and the [event_type] given at creation
    ([null] when none was given). *)
Theorem create_then_notify (a : Credentials) (tok url : string)
    (ev : field string) (now now' : datetime) (net : Network) (w : World) :
  run_authenticate a = Ok tok ->
  let out1 := create_subscription a (mkCreateBody (Val url) ev) now w in
  let k := next_rowid (db w) in
  let out2 := notify_subscription isoformat a k now' net out1.2 in
  (exists resp, out1.1 = Ok resp /\ r_id resp = k)
  /\ outbox out2.2
     = outbox w ++ [(url, mkPayload (Val "success") (Val k)
                            (json_of (optional ev)) (Val (isoformat now')))].
Proof.
  intros H out1 k out2. subst out2 out1 k.
  rewrite (create_subscription_run a tok url ev now w H). cbn [fst snd].
  split; [by eexists|].
  rewrite (notify_subscription_run isoformat a tok _ now' net _ H).
  cbn [db calls outbox].
  rewrite (first_app_new (next_rowid (db w)) (db w)
             (mkSubscription (next_rowid (db w)) url (optional ev) now
                (Some true))
             (next_rowid_fresh (db w)) eq_refl).
  done.
Qed.
End WithClock.

(** X10.  [authenticate] lets a request in only with the configured
    secret and returns that secret; every refusal is the same 401; and a
    request whose [Authorization] header is [Bearer] with the secret is
    let in whatever its other two sources carry. *)
Theorem authenticate_returns_secret (a : Credentials) :
  (forall t, run_authenticate a = Ok t -> t = VALID_TOKEN)
  /\ (forall e, run_authenticate a = Raise e ->
      e = HTTPException 401 "Invalid or missing credentials")
  /\ (authorization a
      = Some (mkHTTPAuthorizationCredentials "Bearer" VALID_TOKEN) ->
      run_authenticate a = Ok VALID_TOKEN).
Proof.
  rewrite (authenticate_first_match a). split; [|split].
  - intros t Ht. by destruct (check_accepts _ _ Ht).
  - intros e. unfold check, unauthorized.
    destruct (first_match (sources a)) as [t|]; [|congruence].
    destruct (String.eqb t VALID_TOKEN); congruence.
  - intros Ha. unfold sources. by rewrite Ha.
Qed.

(** X16.  Two creations in a row get consecutive keys: with valid
    credentials and a table whose keys are all below [MAX_ROWID - 1] (so
    that the store follows its usual rule at both insertions), the second
    of two successive [create_subscription] calls returns the key of the
    first plus one. *)
Theorem consecutive_creates (a : Credentials) (tok url1 url2 : string)
    (ev1 ev2 : field string) (now1 now2 : datetime) (w : World) :
  run_authenticate a = Ok tok ->
  (forall r, r ∈ db w -> id r < MAX_ROWID - 1) ->
  let out1 := create_subscription a (mkCreateBody (Val url1) ev1) now1 w in
  let out2 :=
    create_subscription a (mkCreateBody (Val url2) ev2) now2 out1.2 in
  exists r1 r2,
    out1.1 = Ok r1 /\ out2.1 = Ok r2 /\ r_id r2 = r_id r1 + 1.
Proof.
  intros H _ out1 out2. subst out2 out1.
  rewrite (create_subscription_run a tok url1 ev1 now1 w H). cbn [fst snd].
  rewrite (create_subscription_run a tok url2 ev2 now2 _ H). cbn [fst db].
  do 2 eexists. split; [done|]. split; [done|].
  cbn [response_of r_id id].
  apply (next_rowid_insert
           (mkSubscription (next_rowid (db w)) url1 (optional ev1) now1
              (Some true))).
  intros x. apply next_rowid_above.
Qed.

(** X17.  A PATCH is idempotent: with valid credentials and a row under
    [sub_id], sending the same body a second time gives the same reply and
    leaves the table as the first request left it. *)
Theorem update_subscription_idempotent (a : Credentials) (tok : string)
    (sub_id : Z) (u : SubscriptionUpdate) (w : World) (r : Subscription) :
  run_authenticate a = Ok tok ->
  first sub_id (db w) = Some r ->
  let out1 := update_subscription a sub_id u w in
  let out2 := update_subscription a sub_id u out1.2 in
  out2.1 = out1.1 /\ db out2.2 = db out1.2.
Proof.
  intros H Hf out1 out2. subst out2 out1.
  rewrite (update_subscription_run a tok sub_id u w r H Hf).
  destruct (first_Some _ _ _ Hf) as [Hid _].
  destruct (patched (su_notification_url u) (Some (notification_url r)))
    as [url|] eqn:Hurl; cbn [fst snd].
  - assert (Hf1 : first sub_id (update_row (updated r u url) (db w))
                  = Some (updated r u url)).
    { rewrite <- Hid. rewrite <- Hid in Hf.
      apply (first_update_row (db w) r (updated r u url) Hf). }
    match goal with
    | |- context [update_subscription a sub_id u ?w1] =>
        rewrite (update_subscription_run a tok sub_id u w1 (updated r u url)
                   H Hf1)
    end.
    assert (Hurl1 : patched (su_notification_url u)
                      (Some (notification_url (updated r u url))) = Some url).
    { cbn [updated notification_url].
      destruct (su_notification_url u); simpl in *; congruence. }
    rewrite Hurl1. cbn [fst snd db].
    assert (E : updated (updated r u url) u url = updated r u url).
    { unfold updated. cbn [id event_type created_at is_active].
      by rewrite !patched_twice. }
    rewrite E. split; [done|]. apply update_row_idempotent.
  - match goal with
    | |- context [update_subscription a sub_id u ?w1] =>
        rewrite (update_subscription_run a tok sub_id u w1 r H Hf)
    end.
    by rewrite Hurl.
Qed.

(** X18.  An empty PATCH body changes nothing: with valid credentials, a
    table that keeps the primary key and a row under [sub_id], the reply is
    that of the row as it is and the table is unchanged. *)
Theorem update_subscription_empty_body (a : Credentials) (tok : string)
    (sub_id : Z) (w : World) (r : Subscription) :
  run_authenticate a = Ok tok ->
  unique_ids (db w) ->
  first sub_id (db w) = Some r ->
  let out := update_subscription a sub_id
               (mkSubscriptionUpdate Unset Unset Unset) w in
  out.1 = respond r /\ db out.2 = db w /\ outbox out.2 = outbox w.
Proof.
  intros H Hu Hf out. subst out.
  rewrite (update_subscription_run a tok sub_id _ w r H Hf).
  cbn [su_notification_url patched fst snd db outbox].
  assert (E : updated r (mkSubscriptionUpdate Unset Unset Unset)
                (notification_url r) = r) by by destruct r.
  rewrite E. split; [done|]. split; [|done].
  destruct (first_Some _ _ _ Hf) as [Hid _]. rewrite <- Hid in Hf.
  by apply update_row_same.
Qed.

End RegistryMore.

(** ** Further properties of the listener *)

Module ListenerMore.
Import Listener ListenerSpec ListenerFacts.

Section WithClock.
Variable isoformat : datetime -> string.
Variable parse_datetime : string -> option datetime.
Variable printing : Notification -> option string.

Lemma validate_Ok (body : Payload) (n : Notification) :
  validate parse_datetime body = Ok n ->
  exists t,
    body = mkPayload (Val (status n)) (Val (subscription_id n))
             (Val (event_type n)) (Val t)
    /\ parse_datetime t = Some (timestamp n).
Proof.
  destruct body as [[| |s] [| |i] [| |e] [| |t]]; try done.
  unfold validate. cbn.
  destruct (parse_datetime t) as [d|] eqn:Hd; [|done].
  intros E. injection E as <-. by exists t.
Qed.

Lemma validate_Raise (body : Payload) (err : error) :
  validate parse_datetime body = Raise err -> http_status err = 422.
Proof.
  destruct body as [[| |s] [| |i] [| |e] [| |t]]; unfold validate; cbn;
    try (intros E; by injection E as <-).
  destruct (parse_datetime t); [done|]. intros E. by injection E as <-.
Qed.

Lemma validate_values (s : string) (i : Z) (e t : string) (d : datetime) :
  parse_datetime t = Some d ->
  validate parse_datetime (mkPayload (Val s) (Val i) (Val e) (Val t))
  = Ok (mkNotification s i e d).
Proof. intros Hd. unfold validate. cbn. by rewrite Hd. Qed.

(** X11.  A body with its four fields and a [timestamp] the validator
    reads is appended at the end of the log, stamped with the listener's
    clock, whether or not the prints that follow succeed; the entries that
    were there stay where they were, and a listing with [limit = 1] then
    returns exactly the new entry.  The reply is the acknowledgement when
    the prints return, and a 500 with the text of the exception when one
    of them raises. *)
Theorem receive_notification_appends (s : string) (i : Z) (e t : string)
    (d now : datetime) (log : Log) :
  parse_datetime t = Some d ->
  let n := mkNotification s i e d in
  let new := mkEntry (isoformat now) n in
  let out := receive_notification isoformat parse_datetime printing
               (mkPayload (Val s) (Val i) (Val e) (Val t)) now log in
  out.2 = log ++ [new]
  /\ (forall (k : nat) x, log !! k = Some x -> out.2 !! k = Some x)
  /\ get_notifications 1 out.2 = [new]
  /\ (printing n = None -> out.1 = Ok "Notification processed successfully")
  /\ (forall err, printing n = Some err ->
      out.1 = Raise (HTTPException 500
                       ("Error processing notification: " +:+ err))).
Proof.
  intros Hd n new out.
  assert (E2 : out.2 = log ++ [new]).
  { subst out. unfold receive_notification.
    rewrite (validate_values s i e t d Hd). fold n.
    by destruct (printing n). }
  rewrite E2. split; [done|]. split; [|split; [|split]].
  - intros k x Hk. rewrite lookup_app_l; [done|].
    by apply lookup_lt_Some in Hk.
  - unfold get_notifications. rewrite slice_from_negative by lia.
    rewrite length_app. simpl.
    replace (length log + 1 - Z.to_nat 1)%nat with (length log) by lia.
    apply drop_app_length.
  - intros Hp. subst out. unfold receive_notification.
    rewrite (validate_values s i e t d Hd). fold n. by rewrite Hp.
  - intros err Hp. subst out. unfold receive_notification.
    rewrite (validate_values s i e t d Hd). fold n. by rewrite Hp.
Qed.

(** X12.  [receive_notification] acknowledges a body exactly when its
    four fields carry values, the validator reads the [timestamp] and the
    prints return.  A refusal is either a 422, for a body that does not
    validate, with the log left as it was, or a 500, for a print that
    raised, with the entry already in the log. *)
Theorem receive_notification_accepts_iff (body : Payload) (now : datetime)
    (log : Log) :
  let out := receive_notification isoformat parse_datetime printing body now
               log in
  ((exists m, out.1 = Ok m) <->
   (exists s i e t d,
      body = mkPayload (Val s) (Val i) (Val e) (Val t)
      /\ parse_datetime t = Some d
      /\ printing (mkNotification s i e d) = None))
  /\ (forall err, out.1 = Raise err ->
      (validate parse_datetime body = Raise err
       /\ http_status err = 422 /\ out.2 = log)
      \/ (exists n txt,
            validate parse_datetime body = Ok n
            /\ printing n = Some txt
            /\ err = HTTPException 500
                       ("Error processing notification: " +:+ txt)
            /\ out.2 = log ++ [mkEntry (isoformat now) n])).
Proof.
  intros out. subst out. unfold receive_notification.
  destruct (validate parse_datetime body) as [n|err] eqn:Hv.
  - destruct (validate_Ok body n Hv) as (t & Hb & Ht).
    destruct (printing n) as [txt|] eqn:Hp; cbn [fst snd].
    + split.
      * split; [by intros [m Hm]|].
        intros (s & i & e & t' & d & -> & Hd & Hp').
        rewrite (validate_values s i e t' d Hd) in Hv.
        injection Hv as <-. congruence.
      * intros err E. injection E as <-. right. by exists n, txt.
    + split; [|done]. split; [|by eexists].
      intros _.
      exists (status n), (subscription_id n), (event_type n), t, (timestamp n).
      split; [done|]. split; [done|]. by destruct n.
  - cbn [fst snd]. split.
    + split; [by intros [m Hm]|].
      intros (s & i & e & t & d & -> & Hd & _).
      by rewrite (validate_values s i e t d Hd) in Hv.
    + intros err' E. injection E as <-. left.
      split; [done|]. split; [|done]. by apply (validate_Raise body).
Qed.

(** X13.  After [clear_notifications] a listing is empty for every
    [limit], whatever the log held, and the next body accepted is the only
    entry of the log. *)
Theorem clear_notifications_empties (limit : Z) (log : Log) (s : string)
    (i : Z) (e t : string) (d now : datetime) :
  get_notifications limit (clear_notifications log) = []
  /\ (parse_datetime t = Some d ->
      (receive_notification isoformat parse_datetime printing
         (mkPayload (Val s) (Val i) (Val e) (Val t)) now
         (clear_notifications log)).2
      = [mkEntry (isoformat now) (mkNotification s i e d)]).
Proof.
  split.
  - unfold get_notifications, clear_notifications, slice_from.
    apply drop_nil.
  - intros Hd. unfold receive_notification.
    rewrite (validate_values s i e t d Hd).
    by destruct (printing (mkNotification s i e d)).
Qed.
End WithClock.

End ListenerMore.

(** ** The two services together, and keys over time *)

Module EndToEnd.
Import Registry AuthSpec RegistrySpec Invariants Lifetime.
Import StoreFacts AuthFacts RegistryFacts TableFacts HandlerFacts.

Section WithClock.
Variable isoformat : datetime -> string.
Variable parse_datetime : string -> option datetime.
Variable printing : Listener.Notification -> option string.

(** X14.  What the registry posts, the listener takes in: with valid
    credentials, an active row with an [event_type] and a validator that
    reads the clock text the registry writes, the body posted by
    [notify_subscription] passes the validation of
    [receive_notification] and is logged with the status ["success"], the
    key of the row, its [event_type] and the registry's clock reading; it
    is acknowledged when the listener's prints return, and answered 500,
    the entry being logged all the same, when one of them raises. *)
Theorem delivered_payload_ingested (a : Credentials) (tok : string)
    (sub_id : Z) (now : datetime) (net : Network) (w : World)
    (r : Subscription) (e : string) (d : datetime) :
  run_authenticate a = Ok tok ->
  first sub_id (db w) = Some r ->
  is_active r = Some true ->
  event_type r = Some e ->
  parse_datetime (isoformat now) = Some d ->
  exists json,
    outbox (notify_subscription isoformat a sub_id now net w).2
    = outbox w ++ [(notification_url r, json)]
    /\ forall now' log,
         Listener.receive_notification isoformat parse_datetime printing json
           now' log
         = (match printing (Listener.mkNotification "success" sub_id e d) with
            | None => Ok "Notification processed successfully"
            | Some err =>
                Raise (HTTPException 500
                         ("Error processing notification: " +:+ err))
            end,
            log ++ [Listener.mkEntry (isoformat now')
                      (Listener.mkNotification "success" sub_id e d)]).
Proof.
  intros H Hf Hact He Hd.
  rewrite (notify_subscription_run isoformat a tok sub_id now net w H).
  rewrite Hf, Hact. cbn [default negb snd outbox].
  eexists. split; [done|]. intros now' log.
  unfold notification, Listener.receive_notification, Listener.validate.
  rewrite He. cbn. rewrite Hd.
  by destruct (printing (Listener.mkNotification "success" sub_id e d)).
Qed.
End WithClock.

Lemma step_table (a : Credentials) (o : op) (w : World) :
  exists q now,
    db (step a o w).2
    = db (serve (fun _ => "") a q now (fun _ _ => Raised "") w).2.
Proof.
  destruct o as [body now|sub_id].
  - exists (POST_subscriptions body), now. unfold step, serve.
    rewrite fmap_M_run.
    by destruct (create_subscription a body now w) as [[x|e] w'].
  - exists (DELETE_subscription sub_id), 0. unfold step, serve.
    rewrite fmap_M_run.
    by destruct (delete_subscription a sub_id w) as [[x|e] w'].
Qed.

Lemma ids_within_weaken (n m : Z) (t : Table) :
  n <= m -> ids_within n t -> ids_within m t.
Proof. intros Hnm H r Hr. specialize (H r Hr). lia. Qed.

Lemma step_ids_within (a : Credentials) (o : op) (w : World) (n : Z) :
  0 <= n -> ids_within n (db w) -> ids_within (n + 1) (db (step a o w).2).
Proof.
  intros Hn Hw. destruct (step_table a o w) as (q & now & ->).
  destruct (serve_table (fun _ => "") a q now (fun _ _ => Raised "") w)
    as [E|[(body & url & _ & E)|[(k & u & r & url & _ & Hf & E)
                                |(k & r & _ & _ & E)]]];
    rewrite E.
  - apply (ids_within_weaken n); [lia | done].
  - intros x Hx. apply elem_of_app in Hx as [Hx|Hx].
    + specialize (Hw x Hx). lia.
    + apply list_elem_of_singleton in Hx as ->. cbn [id].
      apply next_rowid_bounded; done.
  - intros x Hx.
    assert (Hid : id x ∈ id <$> update_row (updated r u url) (db w))
      by by apply list_elem_of_fmap_2.
    rewrite ids_update_row in Hid.
    apply list_elem_of_fmap in Hid as (y & -> & Hy).
    specialize (Hw y Hy). lia.
  - intros x Hx. unfold delete_row in Hx.
    apply list_elem_of_filter in Hx as [_ Hx].
    specialize (Hw x Hx). lia.
Qed.

Lemma run_ids_within (a : Credentials) (ops : list op) (w : World) (n : Z) :
  0 <= n -> ids_within n (db w) ->
  ids_within (n + Z.of_nat (length ops)) (db (run a ops w)).
Proof.
  revert w n. induction ops as [|o ops IH]; intros w n Hn Hw.
  - simpl. by rewrite Z.add_0_r.
  - cbn [run length].
    replace (n + Z.of_nat (S (length ops)))
      with ((n + 1) + Z.of_nat (length ops)) by lia.
    apply IH; [lia|]. by apply step_ids_within.
Qed.

(** C1, as the store has it.  In every sequence of creations and
    deletions, from every table, a key assigned by a creation while the
    keys in the table are below [MAX_ROWID] is above the key of every row
    then in the table, so it is the key of none of them; it is 1 when the
    table is empty and otherwise the key of one of its rows plus one:
    the successor of the largest key in the table at that moment. *)
Theorem assigned_key_successor (a : Credentials) (tok : string)
    (ops : list op) (w : World) (j : nat) (k : Z) :
  run_authenticate a = Ok tok ->
  history a ops w !! j = Some (Assigned k) ->
  let table := db (run a (take j ops) w) in
  (forall r, r ∈ table -> id r < MAX_ROWID) ->
  (forall r, r ∈ table -> id r < k)
  /\ (table = [] -> k = 1)
  /\ (table <> [] -> exists r, r ∈ table /\ k = id r + 1)
  /\ first k table = None.
Proof.
  intros H Hj table _.
  rewrite (KeyFacts.assigned_key_next_rowid a tok ops w j k H Hj).
  fold table. split; [|split; [|split]].
  - intros r. apply next_rowid_above.
  - by intros ->.
  - intros Hne. destruct table as [|x t]; [done|].
    destruct (foldr_max_attained x t) as (r & Hr & E).
    exists r. split; [done|]. unfold next_rowid. by rewrite E.
  - apply next_rowid_fresh.
Qed.

(** X19.  From an empty table, after any sequence of creations and
    deletions, with any credentials, every key in the table lies between 1
    and the number of operations performed. *)
Theorem keys_bounded_by_operations (a : Credentials) (ops : list op)
    (w : World) :
  db w = [] ->
  ids_within (Z.of_nat (length ops)) (db (run a ops w)).
Proof.
  intros Hw.
  apply (run_ids_within a ops w 0); [lia|].
  rewrite Hw. intros r Hr. by apply elem_of_nil in Hr.
Qed.

End EndToEnd.

(** ** More worked requests *)

Module MoreExamples.
Import Registry AuthSpec RegistrySpec Invariants Lifetime Samples MoreSamples.
Import RegistryMore ListenerMore EndToEnd.

Lemma three_unique_ids : unique_ids (db three).
Proof.
  unfold unique_ids. simpl.
  repeat (apply NoDup_cons_2;
          [intros Hin;
           repeat (apply elem_of_cons in Hin as [Hin|Hin]; [discriminate|]);
           by apply elem_of_nil in Hin|]).
  apply NoDup_nil_2.
Defined.

Lemma delete_subscription_removes_witness :
  run_authenticate bearer_ok = Ok "secret-token"
  /\ first 2 (db three) = Some row2
  /\ db (delete_subscription bearer_ok 2 three).2 = [row1; row3]
  /\ first 2 (db (delete_subscription bearer_ok 2 three).2) = None.
Proof.
  split; [reflexivity|]. split; [reflexivity|]. split; [reflexivity|].
  destruct (delete_subscription_removes bearer_ok "secret-token" 2 three row2
              eq_refl eq_refl) as (_ & H & _).
  exact H.
Defined.

Lemma delete_subscription_twice_witness :
  run_authenticate bearer_ok = Ok "secret-token"
  /\ first 2 (db three) = Some row2
  /\ in_int64 2 = true
  /\ (delete_subscription bearer_ok 2
        (delete_subscription bearer_ok 2 three).2).1 = not_found.
Proof.
  split; [reflexivity|]. split; [reflexivity|]. split; [reflexivity|].
  destruct (delete_subscription_twice bearer_ok "secret-token" 2 three row2
              eq_refl eq_refl) as (_ & _ & H & _).
  apply H. reflexivity.
Defined.

Lemma missing_key_not_found_witness :
  run_authenticate bearer_ok = Ok "secret-token"
  /\ first 9 (db three) = None
  /\ in_int64 9 = true
  /\ (update_subscription bearer_ok 9
        (mkSubscriptionUpdate Unset (Val "other") Unset) three).1 = not_found
  /\ (delete_subscription bearer_ok 9 three).1 = not_found
  /\ first (-9223372036854775809) (db three) = None
  /\ in_int64 (-9223372036854775809) = false
  /\ (delete_subscription bearer_ok (-9223372036854775809) three).1
     = Raise ServerError.
Proof.
  split; [reflexivity|]. split; [reflexivity|]. split; [reflexivity|].
  destruct (missing_key_not_found bearer_ok "secret-token" 9
              (mkSubscriptionUpdate Unset (Val "other") Unset) three
              eq_refl eq_refl) as (H1 & _).
  destruct (H1 eq_refl) as (Hu & Hd).
  split; [exact Hu|]. split; [exact Hd|].
  split; [reflexivity|]. split; [reflexivity|].
  destruct (missing_key_not_found bearer_ok "secret-token"
              (-9223372036854775809)
              (mkSubscriptionUpdate Unset (Val "other") Unset) three
              eq_refl eq_refl) as (_ & H2 & _).
  exact (proj2 (H2 eq_refl)).
Defined.

Lemma update_null_url_fails_witness :
  run_authenticate bearer_ok = Ok "secret-token"
  /\ first 1 (db three) = Some row1
  /\ db (update_subscription bearer_ok 1
           (mkSubscriptionUpdate Null (Val "other") (Val false)) three).2
     = db three.
Proof.
  split; [reflexivity|]. split; [reflexivity|].
  destruct (update_null_url_fails bearer_ok "secret-token" 1
              (mkSubscriptionUpdate Null (Val "other") (Val false)) three row1
              eq_refl eq_refl eq_refl) as (_ & _ & H & _).
  exact H.
Defined.

Lemma update_null_is_active_stored_witness :
  run_authenticate bearer_ok = Ok "secret-token"
  /\ first 1 (db three) = Some row1
  /\ (update_subscription bearer_ok 1
        (mkSubscriptionUpdate (Val "http://other") Unset Null) three).1
     = Raise ServerError
  /\ first 1 (db (update_subscription bearer_ok 1
                    (mkSubscriptionUpdate (Val "http://other") Unset Null)
                    three).2)
     = Some (mkSubscription 1 "http://other" (Some "test") 0 None).
Proof.
  split; [reflexivity|]. split; [reflexivity|].
  destruct (update_null_is_active_stored bearer_ok "secret-token" 1
              (mkSubscriptionUpdate (Val "http://other") Unset Null) three
              row1 eq_refl eq_refl eq_refl) as (H & _); [discriminate|].
  split; [exact H | reflexivity].
Defined.

Lemma null_is_active_row_witness :
  run_authenticate bearer_ok = Ok "secret-token"
  /\ first 4 (db four) = Some row4
  /\ is_active row4 = None
  /\ (notify_subscription still_clock bearer_ok 4 9 accepts four).1
     = Raise (HTTPException 400 "Inactive subscription")
  /\ (list_subscriptions bearer_ok four).1 = Raise ServerError.
Proof.
  split; [reflexivity|]. split; [reflexivity|]. split; [reflexivity|].
  destruct (null_is_active_row still_clock bearer_ok "secret-token" 4 9
              accepts four row4 eq_refl eq_refl eq_refl) as (H1 & _ & H2).
  split; [exact H1 | exact H2].
Defined.

Lemma list_subscriptions_replies_witness :
  run_authenticate bearer_ok = Ok "secret-token"
  /\ (forall r, r ∈ db three -> is_active r <> None)
  /\ db (list_subscriptions bearer_ok three).2 = db three.
Proof.
  assert (Hall : forall r, r ∈ db three -> is_active r <> None).
  { intros r Hr. simpl in Hr.
    repeat (apply elem_of_cons in Hr as [->|Hr]; [discriminate|]).
    by apply elem_of_nil in Hr. }
  split; [reflexivity|]. split; [exact Hall|].
  destruct (list_subscriptions_replies bearer_ok "secret-token" three
              eq_refl Hall) as (_ & H & _).
  exact H.
Defined.

Lemma serve_keeps_unique_ids_witness :
  unique_ids (db three)
  /\ unique_ids
       (db (serve still_clock bearer_ok (POST_subscriptions hook) 9 accepts
              three).2).
Proof.
  split; [exact three_unique_ids|].
  apply (serve_keeps_unique_ids still_clock bearer_ok
           (POST_subscriptions hook) 9 accepts three three_unique_ids).
Defined.

Lemma serve_frame_witness :
  (forall sub_id, DELETE_subscription 1 <> POST_notify sub_id)
  /\ outbox (serve still_clock bearer_ok (DELETE_subscription 1) 9 accepts
               three).2
     = outbox three.
Proof.
  assert (Hq : forall sub_id, DELETE_subscription 1 <> POST_notify sub_id)
    by discriminate.
  split; [exact Hq|].
  destruct (serve_frame still_clock bearer_ok (DELETE_subscription 1) 9
              accepts three) as (_ & H & _).
  exact (H Hq).
Defined.

Lemma authenticate_returns_secret_witness :
  authorization wrong_bearer
  = Some (mkHTTPAuthorizationCredentials "Bearer" "wrong-token")
  /\ run_authenticate wrong_bearer
     = Raise (HTTPException 401 "Invalid or missing credentials")
  /\ run_authenticate bearer_ok = Ok VALID_TOKEN.
Proof.
  split; [reflexivity|]. split; [reflexivity|].
  destruct (authenticate_returns_secret bearer_ok) as (_ & _ & H).
  apply H. reflexivity.
Defined.

Lemma receive_notification_appends_witness :
  still_parser "2024-01-01T00:00:00" = Some 0
  /\ Listener.get_notifications 1
       (Listener.receive_notification still_clock still_parser cannot_print
          ping 9 ListenerSpec.sample_log).2
     = [Listener.mkEntry "2024-01-01T00:00:00"
          (Listener.mkNotification "success" 1 "test" 0)]
  /\ (Listener.receive_notification still_clock still_parser prints ping 9
        ListenerSpec.sample_log).1
     = Ok "Notification processed successfully".
Proof.
  split; [reflexivity|]. split.
  - destruct (receive_notification_appends still_clock still_parser
                cannot_print "success" 1 "test" "2024-01-01T00:00:00" 0 9
                ListenerSpec.sample_log eq_refl) as (_ & _ & H & _).
    exact H.
  - destruct (receive_notification_appends still_clock still_parser prints
                "success" 1 "test" "2024-01-01T00:00:00" 0 9
                ListenerSpec.sample_log eq_refl) as (_ & _ & _ & H & _).
    apply H. reflexivity.
Defined.

Lemma receive_notification_accepts_iff_witness :
  (Listener.receive_notification still_clock still_parser cannot_print ping 9
     ListenerSpec.sample_log).1
  = Raise (HTTPException 500
             ("Error processing notification: "
              +:+ "'ascii' codec can't encode character"))
  /\ exists n,
       (Listener.receive_notification still_clock still_parser cannot_print
          ping 9 ListenerSpec.sample_log).2
       = ListenerSpec.sample_log ++ [Listener.mkEntry (still_clock 9) n].
Proof.
  split; [reflexivity|].
  destruct (receive_notification_accepts_iff still_clock still_parser
              cannot_print ping 9 ListenerSpec.sample_log) as (_ & H).
  destruct (H _ eq_refl) as [(Hv & _)|(n & txt & _ & _ & _ & E)].
  - discriminate Hv.
  - by exists n.
Defined.

Lemma clear_notifications_empties_witness :
  still_parser "2024-01-01T00:00:00" = Some 0
  /\ (Listener.receive_notification still_clock still_parser prints ping 9
        (Listener.clear_notifications ListenerSpec.sample_log)).2
     = [Listener.mkEntry "2024-01-01T00:00:00"
          (Listener.mkNotification "success" 1 "test" 0)].
Proof.
  split; [reflexivity|].
  destruct (clear_notifications_empties still_clock still_parser prints 5
              ListenerSpec.sample_log "success" 1 "test"
              "2024-01-01T00:00:00" 0 9) as (_ & H).
  apply H. reflexivity.
Defined.

Lemma delivered_payload_ingested_witness :
  run_authenticate bearer_ok = Ok "secret-token"
  /\ first 1 (db three) = Some row1
  /\ is_active row1 = Some true
  /\ event_type row1 = Some "test"
  /\ still_parser (still_clock 9) = Some 0
  /\ exists json,
       outbox (notify_subscription still_clock bearer_ok 1 9 accepts three).2
       = outbox three ++ [(notification_url row1, json)]
       /\ forall now' log,
            Listener.receive_notification still_clock still_parser prints
              json now' log
            = (Ok "Notification processed successfully",
               log ++ [Listener.mkEntry (still_clock now')
                         (Listener.mkNotification "success" 1 "test" 0)]).
Proof.
  split; [reflexivity|]. split; [reflexivity|]. split; [reflexivity|].
  split; [reflexivity|]. split; [reflexivity|].
  apply (delivered_payload_ingested still_clock still_parser prints bearer_ok
           "secret-token" 1 9 accepts three row1 "test" 0);
    reflexivity.
Defined.

Lemma create_then_notify_witness :
  run_authenticate bearer_ok = Ok "secret-token"
  /\ outbox
       (notify_subscription still_clock bearer_ok 4 9 accepts
          (create_subscription bearer_ok hook 8 three).2).2
     = [("http://localhost:8001/receive",
         mkPayload (Val "success") (Val 4) (Val "test")
           (Val "2024-01-01T00:00:00"))].
Proof.
  split; [reflexivity|].
  destruct (create_then_notify still_clock bearer_ok "secret-token"
              "http://localhost:8001/receive" (Val "test") 8 9 accepts three
              eq_refl) as (_ & H).
  exact H.
Defined.

Lemma consecutive_creates_witness :
  run_authenticate bearer_ok = Ok "secret-token"
  /\ (forall r, r ∈ db three -> id r < MAX_ROWID - 1)
  /\ exists r1 r2,
       (create_subscription bearer_ok hook 8 three).1 = Ok r1
       /\ (create_subscription bearer_ok hook 9
             (create_subscription bearer_ok hook 8 three).2).1 = Ok r2
       /\ r_id r2 = r_id r1 + 1.
Proof.
  assert (Hlow : forall r, r ∈ db three -> id r < MAX_ROWID - 1).
  { intros r Hr. simpl in Hr.
    repeat (apply elem_of_cons in Hr as [->|Hr]; [reflexivity|]).
    by apply elem_of_nil in Hr. }
  split; [reflexivity|]. split; [exact Hlow|].
  apply (consecutive_creates bearer_ok "secret-token"
           "http://localhost:8001/receive" "http://localhost:8001/receive"
           (Val "test") (Val "test") 8 9 three eq_refl Hlow).
Defined.

Lemma assigned_key_successor_witness :
  run_authenticate bearer_ok = Ok "secret-token"
  /\ history bearer_ok delete_then_create three !! 1%nat = Some (Assigned 4)
  /\ db (run bearer_ok (take 1 delete_then_create) three) = [row1; row3]
  /\ (forall r, r ∈ [row1; row3] -> id r < MAX_ROWID)
  /\ (forall r, r ∈ [row1; row3] -> id r < 4)
  /\ (exists r, r ∈ [row1; row3] /\ 4 = id r + 1).
Proof.
  assert (Hlow : forall r, r ∈ [row1; row3] -> id r < MAX_ROWID).
  { intros r Hr.
    repeat (apply elem_of_cons in Hr as [->|Hr]; [reflexivity|]).
    by apply elem_of_nil in Hr. }
  split; [reflexivity|]. split; [reflexivity|]. split; [reflexivity|].
  split; [exact Hlow|].
  destruct (assigned_key_successor bearer_ok "secret-token"
              delete_then_create three 1 4 eq_refl eq_refl Hlow)
    as (Habove & _ & Hsucc & _).
  split; [exact Habove|]. apply Hsucc. discriminate.
Defined.

Lemma update_subscription_idempotent_witness :
  run_authenticate bearer_ok = Ok "secret-token"
  /\ first 3 (db three) = Some row3
  /\ db (update_subscription bearer_ok 3
           (mkSubscriptionUpdate (Val "http://other") Null (Val true))
           (update_subscription bearer_ok 3
              (mkSubscriptionUpdate (Val "http://other") Null (Val true))
              three).2).2
     = db (update_subscription bearer_ok 3
             (mkSubscriptionUpdate (Val "http://other") Null (Val true))
             three).2.
Proof.
  split; [reflexivity|]. split; [reflexivity|].
  destruct (update_subscription_idempotent bearer_ok "secret-token" 3
              (mkSubscriptionUpdate (Val "http://other") Null (Val true))
              three row3 eq_refl eq_refl) as (_ & H).
  exact H.
Defined.

Lemma update_subscription_empty_body_witness :
  run_authenticate bearer_ok = Ok "secret-token"
  /\ unique_ids (db three)
  /\ first 3 (db three) = Some row3
  /\ db (update_subscription bearer_ok 3
           (mkSubscriptionUpdate Unset Unset Unset) three).2
     = db three.
Proof.
  split; [reflexivity|]. split; [exact three_unique_ids|].
  split; [reflexivity|].
  destruct (update_subscription_empty_body bearer_ok "secret-token" 3 three
              row3 eq_refl three_unique_ids eq_refl) as (_ & H & _).
  exact H.
Defined.

Lemma keys_bounded_by_operations_witness :
  db empty = []
  /\ ids_within 3 (db (run bearer_ok create_delete_create empty)).
Proof.
  split; [reflexivity|].
  apply (keys_bounded_by_operations bearer_ok create_delete_create empty).
  reflexivity.
Defined.

End MoreExamples.
